(** * web-api: the two fetch / normalize / persist pipelines

    A shallow embedding of [amazon_product_detail.py] (the detail pipeline)
    and [homedepo_product-search.py] (the search pipeline).

    - A Python [str] is a [string]; one [ascii] stands for one character.
    - A parsed JSON body is a [json] tree; a [dict] is an association list in
      insertion order, looked up by its first binding.
    - The network is an oracle indexed by the number of requests issued so
      far; the clock, the console and the output file are threaded through a
      state record, and every effect the properties below speak about is
      appended to a trace of events.
    - A raised exception is [None] at the place where the Python code would
      unwind, and an [Aborted] or [Crashed] outcome of the run it ends.
    - The output files are utf-8: writing a text that holds a lone surrogate
      (which JSON parsing lets through) raises.  The characters of the model
      are opaque, so which of them are surrogates is a parameter, the
      [Codec]. *)

From Stdlib Require Import String Ascii List Bool Arith ZArith Lia.
From Stdlib Require Import DecimalString.
Import ListNotations.

Set Warnings "-register-all".

Local Open Scope string_scope.
Local Open Scope list_scope.

(** ** Python strings *)

Module PyStr.

Definition LF : ascii := "010"%char.
Definition CR : ascii := "013"%char.

(** [str.isspace] on one character (code points below 256). *)
Definition isspace (c : ascii) : bool :=
  let n := nat_of_ascii c in
  ((9 <=? n)%nat && (n <=? 13)%nat) || ((28 <=? n)%nat && (n <=? 32)%nat)
  || (n =? 133)%nat || (n =? 160)%nat.

(** Truth value of a string: [if s]. *)
Definition nonempty (s : string) : bool :=
  match s with EmptyString => false | String _ _ => true end.

Fixpoint lstrip (s : string) : string :=
  match s with
  | EmptyString => EmptyString
  | String c s' => if isspace c then lstrip s' else s
  end.

Fixpoint rstrip (s : string) : string :=
  match s with
  | EmptyString => EmptyString
  | String c s' =>
      match rstrip s' with
      | EmptyString => if isspace c then EmptyString else String c EmptyString
      | r => String c r
      end
  end.

(** [s.strip()] *)
Definition strip (s : string) : string := lstrip (rstrip s).

Definition push_word (w : string) (ws : list string) : list string :=
  match w with EmptyString => ws | _ => w :: ws end.

(** One right-to-left scan: the word in progress and the finished words. *)
Fixpoint split_scan (s : string) : string * list string :=
  match s with
  | EmptyString => (EmptyString, [])
  | String c s' =>
      let (w, ws) := split_scan s' in
      if isspace c then (EmptyString, push_word w ws) else (String c w, ws)
  end.

(** [s.split()]: the maximal runs of non-whitespace characters. *)
Definition split (s : string) : list string :=
  let (w, ws) := split_scan s in push_word w ws.

(** Text mode with [newline=None]: CR LF and a lone CR are read as LF. *)
Fixpoint universal_newlines (s : string) : string :=
  match s with
  | EmptyString => EmptyString
  | String c s' =>
      if Ascii.eqb c CR then
        match s' with
        | String c' _ =>
            if Ascii.eqb c' LF then universal_newlines s'
            else String LF (universal_newlines s')
        | EmptyString => String LF EmptyString
        end
      else String c (universal_newlines s')
  end.

(** [for line in file]: the lines of a text, each keeping its LF. *)
Fixpoint readlines (s : string) : list string :=
  match s with
  | EmptyString => []
  | String c s' =>
      if Ascii.eqb c LF then String c EmptyString :: readlines s'
      else match readlines s' with
           | [] => [String c EmptyString]
           | l :: ls => String c l :: ls
           end
  end.

(** [sep.join(parts)] *)
Definition join (sep : string) (parts : list string) : string :=
  String.concat sep parts.

(** [s[:n]] *)
Fixpoint slice_to (n : nat) (s : string) : string :=
  match n, s with
  | S n', String c s' => String c (slice_to n' s')
  | _, _ => EmptyString
  end.

End PyStr.

(** ** Input Reader *)

Module Reader.
Import PyStr.

(** amazon_product_detail.py, lines 48-51: [f.read().strip().split()]
    followed by the comprehension that strips and drops empty items. *)
Definition read_asin_list (raw : string) : list string :=
  let asin_list := split (strip (universal_newlines raw)) in
  map strip (filter (fun asin => nonempty (strip asin)) asin_list).

(** homedepo_product-search.py, [read_keywords]. *)
Definition read_keywords (raw : string) : list string :=
  map strip
      (filter (fun line => nonempty (strip line))
              (readlines (universal_newlines raw))).

(** The words of the specification: an entry is what lies between two
    separators; the reader keeps the non-blank ones, trimmed, in order. *)
Fixpoint split_on (sep : ascii -> bool) (s : string) : list string :=
  match s with
  | EmptyString => [EmptyString]
  | String c s' =>
      if sep c then EmptyString :: split_on sep s'
      else match split_on sep s' with
           | [] => [String c EmptyString]
           | p :: ps => String c p :: ps
           end
  end.

Fixpoint blank (s : string) : bool :=
  match s with
  | EmptyString => true
  | String c s' => isspace c && blank s'
  end.

Definition nonblank_trimmed (entries : list string) : list string :=
  map strip (filter (fun e => negb (blank e)) entries).

(** Entries of the search input: the lines. *)
Definition spec_lines (raw : string) : list string :=
  split_on (Ascii.eqb LF) (universal_newlines raw).

(** Entries of the detail input: whitespace-separated tokens. *)
Definition spec_tokens (raw : string) : list string :=
  split_on isspace (universal_newlines raw).

(** A returned key is trimmed and not blank. *)
Definition trimmed (k : string) : Prop :=
  blank k = false /\ strip k = k.

Definition LFs : string := String LF EmptyString.

(** The lines as iterated (each keeping its LF) against the lines as split
    at each LF. *)
Inductive lines_match : list string -> list string -> Prop :=
| match_end : lines_match [] [EmptyString]
| match_last (l : string) : lines_match [l] [l]
| match_line (p : string) (ls ps : list string) :
    lines_match ls ps -> lines_match ((p ++ LFs)%string :: ls) (p :: ps).

Fixpoint no_space (s : string) : bool :=
  match s with
  | EmptyString => true
  | String c s' => negb (isspace c) && no_space s'
  end.

Definition word (t : string) : Prop :=
  no_space t = true /\ nonempty t = true.

(** The first character is no whitespace. *)
Definition starts_clean (k : string) : bool :=
  match k with
  | EmptyString => false
  | String c _ => negb (isspace c)
  end.

(** The last character is no whitespace. *)
Fixpoint ends_clean (k : string) : bool :=
  match k with
  | EmptyString => false
  | String c k' =>
      match k' with
      | EmptyString => negb (isspace c)
      | String _ _ => ends_clean k'
      end
  end.

(** [key] is [entry] without its surrounding whitespace: the entry is the
    key between two runs of whitespace, and the key neither starts nor ends
    with whitespace. *)
Definition trim_of (entry key : string) : Prop :=
  exists before after,
    entry = (before ++ key ++ after)%string
    /\ blank before = true /\ blank after = true
    /\ starts_clean key = true /\ ends_clean key = true.

(** The non-blank entries among some entries, in order. *)
Definition nonblank (entries : list string) : list string :=
  filter (fun e => negb (blank e)) entries.

End Reader.

(** ** Python values, as parsed from a JSON body *)

Module Py.
Import PyStr.

(** A JSON number: an [int] is exact; a [float] is held by the text
    [json.dumps] prints for it and by whether it is zero. *)
Inductive number :=
| Int (z : Z)
| Float (is_zero : bool) (text : string).

Inductive json :=
| JNull
| JBool (b : bool)
| JNum (n : number)
| JStr (s : string)
| JArr (items : list json)
| JObj (fields : list (string * json)).

(** A [dict] with string keys, in insertion order. *)
Definition dict := list (string * json).

Fixpoint lookup (k : string) (d : dict) : option json :=
  match d with
  | [] => None
  | (k', v) :: d' => if String.eqb k k' then Some v else lookup k d'
  end.

(** [k in d] *)
Definition has_key (k : string) (d : dict) : bool :=
  match lookup k d with Some _ => true | None => false end.

(** [d.get(k, default)] *)
Definition get (d : dict) (k : string) (default : json) : json :=
  match lookup k d with Some v => v | None => default end.

(** [d[k] = v]: replaces in place, or adds at the end. *)
Fixpoint set_item (k : string) (v : json) (d : dict) : dict :=
  match d with
  | [] => [(k, v)]
  | (k', v') :: d' =>
      if String.eqb k k' then (k', v) :: d' else (k', v') :: set_item k v d'
  end.

(** [del d[k]] *)
Fixpoint del_item (k : string) (d : dict) : dict :=
  match d with
  | [] => []
  | (k', v') :: d' =>
      if String.eqb k k' then del_item k d' else (k', v') :: del_item k d'
  end.

(** [v.get(k, default)] on any value: only a dict has the method. *)
Definition py_get (v : json) (k : string) (default : json) : option json :=
  match v with
  | JObj d => Some (get d k default)
  | _ => None
  end.

(** Truth value: [if v]. *)
Definition truthy (v : json) : bool :=
  match v with
  | JNull => false
  | JBool b => b
  | JNum (Int z) => negb (Z.eqb z 0)
  | JNum (Float is_zero _) => negb is_zero
  | JStr s => nonempty s
  | JArr [] => false
  | JArr (_ :: _) => true
  | JObj [] => false
  | JObj (_ :: _) => true
  end.

(** [len(v)]; [None] is the TypeError. *)
Definition py_len (v : json) : option nat :=
  match v with
  | JStr s => Some (String.length s)
  | JArr l => Some (List.length l)
  | JObj d => Some (List.length d)
  | _ => None
  end.

Fixpoint chars (s : string) : list json :=
  match s with
  | EmptyString => []
  | String c s' => JStr (String c EmptyString) :: chars s'
  end.

(** [for x in v]: a list gives its items, a str its characters, a dict its
    keys; anything else is not iterable. *)
Definition py_iter (v : json) : option (list json) :=
  match v with
  | JArr l => Some l
  | JStr s => Some (chars s)
  | JObj d => Some (map (fun kv => JStr (fst kv)) d)
  | _ => None
  end.

(** [v == s] for a str [s]. *)
Definition eq_str (v : json) (s : string) : bool :=
  match v with
  | JStr s' => String.eqb s' s
  | _ => false
  end.

(** [k in v] for a str [k]: key of a dict, item of a list, substring of a
    str; [None] is the TypeError. *)
Definition py_in (k : string) (v : json) : option bool :=
  match v with
  | JObj d => Some (has_key k d)
  | JArr l => Some (existsb (fun x => eq_str x k) l)
  | JStr s => Some (match String.index 0 k s with Some _ => true | None => false end)
  | _ => None
  end.

Fixpoint all_strs (l : list json) : option (list string) :=
  match l with
  | [] => Some []
  | JStr s :: l' =>
      match all_strs l' with Some ss => Some (s :: ss) | None => None end
  | _ :: _ => None
  end.

(** [sep.join(v)]: [v] is iterated and every item has to be a str. *)
Definition py_join (sep : string) (v : json) : option string :=
  match py_iter v with
  | None => None
  | Some items =>
      match all_strs items with
      | Some ss => Some (join sep ss)
      | None => None
      end
  end.

(** *** [json.dumps], default settings *)

Definition dquote : ascii := "034"%char.
Definition backslash : ascii := "092"%char.

Definition hex_digit (n : nat) : ascii :=
  nth n (list_ascii_of_string "0123456789abcdef") "0"%char.

Definition escape_char (c : ascii) : string :=
  let n := nat_of_ascii c in
  if Ascii.eqb c dquote then String backslash (String dquote EmptyString)
  else if Ascii.eqb c backslash then String backslash (String backslash EmptyString)
  else if (n =? 10)%nat then "\n"
  else if (n =? 13)%nat then "\r"
  else if (n =? 9)%nat then "\t"
  else if (n =? 8)%nat then "\b"
  else if (n =? 12)%nat then "\f"
  else if ((32 <=? n)%nat && (n <=? 126)%nat) then String c EmptyString
  else ("\u00" ++ String (hex_digit (n / 16))
                         (String (hex_digit (n mod 16)) EmptyString))%string.

Fixpoint escape (s : string) : string :=
  match s with
  | EmptyString => EmptyString
  | String c s' => (escape_char c ++ escape s')%string
  end.

Definition quoted (s : string) : string :=
  String dquote (escape s ++ String dquote EmptyString)%string.

Definition int_text (z : Z) : string :=
  NilZero.string_of_int (Z.to_int z).

Fixpoint dumps (v : json) : string :=
  match v with
  | JNull => "null"
  | JBool true => "true"
  | JBool false => "false"
  | JNum (Int z) => int_text z
  | JNum (Float _ text) => text
  | JStr s => quoted s
  | JArr l => ("[" ++ join ", " (map dumps l) ++ "]")%string
  | JObj d =>
      ("{" ++ join ", "
                   (map (fun kv => match kv with
                                   | (k, x) => quoted k ++ ": " ++ dumps x
                                   end) d)
           ++ "}")%string
  end.

End Py.

(** ** Text that the utf-8 output files accept *)

Module Csv.
Import Py.

(** The characters that utf-8 refuses to encode. *)
Class Codec := { surrogate : ascii -> bool }.

Section Encode.

Context {codec : Codec}.

(** [s.encode('utf-8')] does not raise. *)
Fixpoint encodable (s : string) : bool :=
  match s with
  | EmptyString => true
  | String c s' => negb (surrogate c) && encodable s'
  end.

(** The writer can put the cell into the file.  A str is written as it is;
    any other value goes through [str()], whose text utf-8 always encodes
    (the [repr] of a str inside a list or dict escapes its surrogates). *)
Definition cell_ok (v : json) : bool :=
  match v with
  | JStr s => encodable s
  | _ => true
  end.

Definition row_ok (cells : list json) : bool := forallb cell_ok cells.

End Encode.

(** A codec without surrogates among the characters. *)
Definition plain : Codec := {| surrogate := fun _ => false |}.

(** A codec for which the character 237 is a lone surrogate. *)
Definition marked : Codec :=
  {| surrogate := fun c => Ascii.eqb c "237"%char |}.

End Csv.

(** ** The detail pipeline: amazon_product_detail.py *)

Module Detail.
Import PyStr Py Csv.

Definition LIMIT : Z := 3.
Definition API_URL : string := "https://data.unwrangle.com/api/getter/".
Definition MAX_RETRIES : nat := 1.
Definition REQUEST_DELAY : nat := 1.

Definition CSV_FIELDS : list string :=
  [ "asin"; "name"; "brand"; "url"; "price"; "price_reduced"; "rating";
    "review_count"; "availability"; "category"; "bullet_points"; "description";
    "product_dimensions"; "product_specifications"; "product_weight";
    "main_image_url"; "whats_in_box"; "variant_data" ].

(** The marker logged when an error body carries no message. *)
Definition unknown_error : string := "未知错误".

Definition bind {A B : Type} (x : option A) (f : A -> option B) : option B :=
  match x with Some a => f a | None => None end.

Notation "x <- e ;; k" := (bind e (fun x => k))
  (at level 61, e at next level, right associativity).

(** [truncate_text(text, max_length)]; [None] is a raised TypeError. *)
Definition truncate_text (text : json) (max_length : nat) : option json :=
  if negb (truthy text) then Some (JStr "")
  else
    n <- py_len text ;;
    if (n <=? max_length)%nat then Some text
    else match text with
         | JStr s => Some (JStr (slice_to max_length s ++ "...")%string)
         | _ => None
         end.

(** [next((item.get('value', '') for item in table
           if item.get('name') == wanted), '')] on the items of the table:
    the generator stops at the first match and raises on an item that has
    no [get] before it. *)
Fixpoint first_detail (wanted : string) (items : list json) : option json :=
  match items with
  | [] => Some (JStr "")
  | JObj item :: rest =>
      if eq_str (get item "name" JNull) wanted
      then Some (get item "value" (JStr ""))
      else first_detail wanted rest
  | _ :: _ => None
  end.

Definition detail_named (wanted : string) (product : dict) : option json :=
  items <- py_iter (get product "details_table" (JArr [])) ;;
  first_detail wanted items.

(** [[cat.get('name', '') for cat in cats]] *)
Fixpoint names_of (cats : list json) : option (list json) :=
  match cats with
  | [] => Some []
  | cat :: rest =>
      name <- py_get cat "name" (JStr "") ;;
      names <- names_of rest ;;
      Some (name :: names)
  end.

(** The dict literal of lines 139-158, evaluated top to bottom. *)
Definition make_row (asin : string) (product : dict) : option dict :=
  cats <- py_iter (get product "categories" (JArr [])) ;;
  cat_names <- names_of cats ;;
  category <- py_join "; " (JArr cat_names) ;;
  bullet_points <- py_join "; " (get product "features" (JArr [])) ;;
  description <- truncate_text (get product "description" (JStr "")) 1000 ;;
  dimensions <- detail_named "Product Dimensions" product ;;
  weight <- detail_named "Item Weight" product ;;
  whats_in_box <- py_join "; " (get product "whats_in_box" (JArr [])) ;;
  Some [ ("asin", JStr asin);
         ("name", get product "name" (JStr ""));
         ("brand", get product "brand" (JStr ""));
         ("url", get product "url" (JStr ""));
         ("price", get product "price" (JStr ""));
         ("price_reduced", get product "price_reduced" (JStr ""));
         ("rating", get product "rating" (JStr ""));
         ("review_count", get product "total_ratings" (JStr ""));
         ("availability", get product "in_stock" (JBool true));
         ("category", JStr category);
         ("bullet_points", JStr bullet_points);
         ("description", description);
         ("product_dimensions", JStr (dumps dimensions));
         ("product_specifications",
            JStr (dumps (get product "details_table" (JObj []))));
         ("product_weight", weight);
         ("main_image_url", get product "main_image" (JStr ""));
         ("whats_in_box", JStr whats_in_box);
         ("variant_data", JStr (dumps (get product "variants" (JObj [])))) ].

(** What one pass through the [try] block comes to. *)
Inductive attempt_result :=
| Row (csv_row : dict)
| ApiError (message : json)
| Raised.

(** Lines 129-166 on the outcome of [requests.get(...).json()]; [None] is
    a failed request or an unparsable body.  [data.keys()] in the debug
    print and [product.get] need dicts. *)
Definition handle_response (asin : string) (response : option json)
  : attempt_result :=
  match response with
  | Some (JObj data) =>
      match lookup "detail" data with
      | Some (JObj product) =>
          match make_row asin product with
          | Some csv_row =>
              match lookup "remaining_credits" data with
              | Some credits => Row (set_item "remaining_credits" credits csv_row)
              | None => Row csv_row
              end
          | None => Raised
          end
      | Some _ => Raised
      | None => ApiError (get data "message" (JStr unknown_error))
      end
  | _ => Raised
  end.

Inductive event :=
| Request (url : string)
| Sleep (seconds : nat)
| LogApiError (attempt max_retries : nat) (message : json)
| LogException (attempt max_retries : nat)
| Flush.

Record state := mkState {
  requests : nat;                   (* HTTP requests issued so far *)
  trace : list event;               (* oldest first *)
  csvfile : list (list json);       (* the lines written, header first *)
  success_count : nat;
  failed_asins : list string;
  remaining_credits : option json
}.

Definition emit (e : event) (s : state) : state :=
  mkState (requests s) (trace s ++ [e]) (csvfile s) (success_count s)
          (failed_asins s) (remaining_credits s).

Definition count_request (s : state) : state :=
  mkState (S (requests s)) (trace s) (csvfile s) (success_count s)
          (failed_asins s) (remaining_credits s).

Definition write_line (cells : list json) (s : state) : state :=
  mkState (requests s) (trace s) (csvfile s ++ [cells]) (S (success_count s))
          (failed_asins s) (remaining_credits s).

Definition add_failed (asin : string) (s : state) : state :=
  mkState (requests s) (trace s) (csvfile s) (success_count s)
          (failed_asins s ++ [asin]) (remaining_credits s).

Definition set_credits (c : json) (s : state) : state :=
  mkState (requests s) (trace s) (csvfile s) (success_count s)
          (failed_asins s) (Some c).

Definition request_url (asin api_key : string) : string :=
  let amazon_url := ("https://www.amazon.com/dp/" ++ asin ++ "/")%string in
  (API_URL ++ "?platform=amazon_detail&url=" ++ amazon_url
           ++ "&api_key=" ++ api_key)%string.

Section Run.

Context {codec : Codec}.

(** [DictWriter.writerow]: a key outside the field names is a ValueError;
    a missing field is written as the empty string; a cell that the file's
    utf-8 encoding refuses is a UnicodeEncodeError, and nothing of the row
    is written. *)
Definition writerow (fieldnames : list string) (rowdict : dict)
  : option (list json) :=
  if forallb (fun kv => existsb (String.eqb (fst kv)) fieldnames) rowdict
  then
    let cells := map (fun k => get rowdict k (JStr "")) fieldnames in
    if row_ok cells then Some cells else None
  else None.

(** The remote API: what request number [n], sent to [url], comes back
    with; [None] when the request or the JSON parsing raises. *)
Variable http : nat -> string -> option json.

(** [for attempt in range(max_retries)] of [fetch_product_data]. *)
Fixpoint fetch_attempts (max_retries : nat) (attempts : list nat)
         (asin api_key : string) (s : state) : option dict * state :=
  match attempts with
  | [] => (None, s)
  | attempt :: rest =>
      let url := request_url asin api_key in
      let s1 := count_request (emit (Request url) s) in
      match handle_response asin (http (requests s) url) with
      | Row csv_row => (Some csv_row, s1)
      | failure =>
          let s2 :=
            match failure with
            | ApiError message =>
                emit (LogApiError (attempt + 1) max_retries message) s1
            | _ => emit (LogException (attempt + 1) max_retries) s1
            end in
          let s3 :=
            if (attempt <? max_retries - 1)%nat
            then emit (Sleep (REQUEST_DELAY * (attempt + 1))) s2
            else s2 in
          fetch_attempts max_retries rest asin api_key s3
      end
  end.

Definition fetch_product_data (asin api_key : string) (s : state)
  : option dict * state :=
  fetch_attempts MAX_RETRIES (seq 0 MAX_RETRIES) asin api_key s.

Inductive outcome :=
| Completed (s : state)
| Aborted (s : state).      (* an exception reached the outer [except] *)

(** The body of the [for i, asin in enumerate(asin_list)] loop up to the
    periodic flush and the delay. *)
Definition handle_asin (asin api_key : string) (s : state) : outcome :=
  match fetch_product_data asin api_key s with
  | (Some ((_ :: _) as product_data), s1) =>
      let (product_data, s2) :=
        match lookup "remaining_credits" product_data with
        | Some credits =>
            (del_item "remaining_credits" product_data, set_credits credits s1)
        | None => (product_data, s1)
        end in
      match writerow CSV_FIELDS product_data with
      | Some cells => Completed (write_line cells s2)
      | None => Aborted s2
      end
  | (_, s1) => Completed (add_failed asin s1)
  end.

Definition after_asin (i : nat) (s : state) : state :=
  let s1 := if ((i + 1) mod 10 =? 0)%nat then emit Flush s else s in
  emit (Sleep REQUEST_DELAY) s1.

Fixpoint process (i : nat) (asin_list : list string) (api_key : string)
         (s : state) : outcome :=
  match asin_list with
  | [] => Completed s
  | asin :: rest =>
      match handle_asin asin api_key s with
      | Completed s1 => process (S i) rest api_key (after_asin i s1)
      | Aborted s1 => Aborted s1
      end
  end.

(** [asin_list[:limit]] when [limit > 0]. *)
Definition apply_limit (limit : Z) (asin_list : list string) : list string :=
  if (0 <? limit)%Z then firstn (Z.to_nat limit) asin_list else asin_list.

Inductive run :=
| NoApiKey
| InputError
| Ran (asin_list : list string) (result : outcome).

(** After [writeheader]. *)
Definition initial : state :=
  mkState 0 [] [map JStr CSV_FIELDS] 0 [] None.

(** [main], with the configured limit, the environment's API key and the
    input file (absent or unreadable: [None]) as arguments. *)
Definition main (limit : Z) (api_key : option string)
           (input_file : option string) : run :=
  match api_key with
  | None | Some EmptyString => NoApiKey
  | Some key =>
      match input_file with
      | None => InputError
      | Some raw =>
          let asin_list := apply_limit limit (Reader.read_asin_list raw) in
          Ran asin_list (process 0 asin_list key initial)
      end
  end.

End Run.

Definition state_of (o : outcome) : state :=
  match o with Completed s | Aborted s => s end.

(** Every request of a trace is followed by a sleep of [d], before the next
    request and before the trace ends; [pending] says that a request is
    still waiting for its sleep. *)
Fixpoint delayed (d : nat) (pending : bool) (t : list event) : bool :=
  match t with
  | [] => negb pending
  | Request _ :: t' => negb pending && delayed d true t'
  | Sleep n :: t' =>
      if pending then (n =? d)%nat && delayed d false t'
      else delayed d false t'
  | _ :: t' => delayed d pending t'
  end.

(** An event that is neither a request nor a sleep. *)
Definition quiet (e : event) : bool :=
  match e with Request _ | Sleep _ => false | _ => true end.

(** The empty string, the empty list and the empty structure. *)
Definition is_empty_default (v : json) : bool :=
  match v with
  | JStr EmptyString | JArr [] | JObj [] => true
  | _ => false
  end.

(** Source field of the payload, output field derived from it, and what
    the output field holds when the source field is missing. *)
Definition field_defaults : list (string * string * json) :=
  [ ("name", "name", JStr "");
    ("brand", "brand", JStr "");
    ("url", "url", JStr "");
    ("price", "price", JStr "");
    ("price_reduced", "price_reduced", JStr "");
    ("rating", "rating", JStr "");
    ("total_ratings", "review_count", JStr "");
    ("in_stock", "availability", JBool true);
    ("categories", "category", JStr "");
    ("features", "bullet_points", JStr "");
    ("description", "description", JStr "");
    ("details_table", "product_dimensions", JStr (dumps (JStr "")));
    ("details_table", "product_specifications", JStr (dumps (JObj [])));
    ("details_table", "product_weight", JStr "");
    ("main_image", "main_image_url", JStr "");
    ("whats_in_box", "whats_in_box", JStr "");
    ("variants", "variant_data", JStr (dumps (JObj []))) ].

(** The URLs a run sent a request to, in order. *)
Definition requested_urls (t : list event) : list string :=
  flat_map (fun e => match e with Request url => [url] | _ => [] end) t.

End Detail.

(** ** The search pipeline: homedepo_product-search.py *)

Module Search.
Import PyStr Py Csv.

Definition fieldnames : list string :=
  [ "keyword"; "title"; "link"; "price"; "unit"; "rating"; "reviews";
    "model_number"; "brand"; "delivery_free"; "store_name";
    "in_stock_quantity" ].

(** A line of the output file. *)
Inductive line :=
| Header (names : list string)
| Data (cells : list json).

(** The output file: [None] while it does not exist. *)
Definition file := option (list line).

(** [open(output_file, mode)]: ['w'] truncates, ['a'] keeps what is there;
    both create a missing file. *)
Definition open_file (append : bool) (f : file) : list line :=
  if append then match f with Some old => old | None => [] end else [].

(** The row built for one product, lines 74-98; [product.get] needs a
    dict. *)
Definition product_row (keyword : string) (product : json)
  : option (list json) :=
  match product with
  | JObj p =>
      let delivery_free :=
        match get p "delivery" JNull with
        | JObj delivery => get delivery "free" (JBool false)
        | _ => JBool false
        end in
      let store_name :=
        match get p "pickup" JNull with
        | JObj pickup => get pickup "store_name" (JStr "")
        | _ => JStr ""
        end in
      let in_stock_quantity :=
        match get p "pickup" JNull with
        | JObj pickup => get pickup "quantity" (JNum (Int 0))
        | _ => JNum (Int 0)
        end in
      Some [ JStr keyword;
             get p "title" (JStr "");
             get p "link" (JStr "");
             get p "price" (JStr "");
             get p "unit" (JStr "");
             get p "rating" (JStr "");
             get p "reviews" (JStr "");
             get p "model_number" (JStr "");
             get p "brand" (JStr "");
             delivery_free; store_name; in_stock_quantity ]
  | _ => None
  end.

Section Save.

Context {codec : Codec}.

(** [for product in products: ... writer.writerow(product_data)]: the
    rows written, and whether the loop ran to its end.  It is left by the
    AttributeError of a product that is no dict and by the
    UnicodeEncodeError of a row that the utf-8 file refuses. *)
Fixpoint write_products (keyword : string) (products : list json)
  : list line * bool :=
  match products with
  | [] => ([], true)
  | product :: rest =>
      match product_row keyword product with
      | Some cells =>
          if row_ok cells
          then let (rows, done) := write_products keyword rest in
               (Data cells :: rows, done)
          else ([], false)
      | None => ([], false)
      end
  end.

(** [save_to_csv(results, keyword, output_file, append)]: the returned
    count ([None] when an exception leaves the function), the file
    afterwards, and the lines this call wrote (none when the file was not
    opened). *)
Definition save_to_csv (results : dict) (keyword : string) (append : bool)
           (f : file) : option nat * file * list line :=
  match lookup "products" results with
  | None => (Some 0, f, [])
  | Some products =>
      if negb (truthy products) then (Some 0, f, [])
      else
        let file_exists := match f with Some _ => true | None => false end in
        let opened := open_file append f in
        let header :=
          if negb file_exists || negb append
          then [Header fieldnames] else [] in
        let (rows, count) :=
          match py_iter products with
          | None => ([], None)
          | Some items =>
              match write_products keyword items with
              | (rows, true) => (rows, py_len products)
              | (rows, false) => (rows, None)
              end
          end in
        (count, Some (opened ++ header ++ rows), header ++ rows)
  end.

End Save.

Inductive event :=
| Fetch (keyword : string) (page : nat) (nao : Z)
| Sleep (seconds : nat)
| Report (keyword : string) (total_products : nat).

Record state := mkState {
  requests : nat;            (* searches issued so far *)
  trace : list event;        (* oldest first *)
  output : file;
  first_write : bool
}.

Definition emit (e : event) (s : state) : state :=
  mkState (requests s) (trace s ++ [e]) (output s) (first_write s).

(** [not ("serpapi_pagination" not in results
          or "next" not in results["serpapi_pagination"])];
    [None] is the TypeError of [in] on a value that is no container. *)
Definition has_next (results : dict) : option bool :=
  match lookup "serpapi_pagination" results with
  | None => Some false
  | Some pagination => py_in "next" pagination
  end.

(** The [nao] parameter of a page. *)
Definition offset (page : nat) : Z :=
  if (page =? 1)%nat then 0%Z else ((Z.of_nat page - 1) * 24)%Z.

Section Run.

Context {codec : Codec}.

(** The search API: what search number [n] for [q] at offset [nao] comes
    back with; [None] when [get_dict] raises. *)
Variable serp : nat -> string -> Z -> option dict.

(** [search_home_depot(keyword, api_key, page)] *)
Definition search_home_depot (keyword : string) (page : nat) (s : state)
  : option dict * state :=
  let nao := offset page in
  (serp (requests s) keyword nao,
   mkState (S (requests s)) (trace s ++ [Fetch keyword page nao])
           (output s) (first_write s)).

Inductive outcome :=
| Completed (s : state)
| Crashed (s : state).      (* an unhandled exception ended the process *)

(** [for page in range(1, max_pages + 1)] for one keyword; the result
    carries [total_products] when the loop is left normally. *)
Fixpoint fetch_pages (pages : list nat) (keyword : string)
         (total_products : nat) (s : state) : option nat * state :=
  match pages with
  | [] => (Some total_products, s)
  | page :: rest =>
      match search_home_depot keyword page s with
      | (None, s1) => (None, s1)
      | (Some results, s1) =>
          match save_to_csv results keyword (negb (first_write s1))
                            (output s1) with
          | (None, f, _) =>
              (None, mkState (requests s1) (trace s1) f (first_write s1))
          | (Some products_count, f, _) =>
              let s2 := mkState (requests s1) (trace s1) f false in
              let total := total_products + products_count in
              match has_next results with
              | None => (None, s2)
              | Some next =>
                  if negb next || (products_count =? 0)%nat
                  then (Some total, s2)
                  else fetch_pages rest keyword total (emit (Sleep 1) s2)
              end
          end
      end
  end.

Definition max_pages : nat := 3.

Fixpoint search_all (keywords : list string) (s : state) : outcome :=
  match keywords with
  | [] => Completed s
  | keyword :: rest =>
      match fetch_pages (seq 1 max_pages) keyword 0 s with
      | (Some total_products, s1) =>
          search_all rest (emit (Report keyword total_products) s1)
      | (None, s1) => Crashed s1
      end
  end.

(** [main], from the text of the keywords file and the output file as it
    is found when the run starts. *)
Definition main (keywords_file : string) (before : file) : outcome :=
  search_all (Reader.read_keywords keywords_file) (mkState 0 [] before true).

End Run.

Definition state_of (o : outcome) : state :=
  match o with Completed s | Crashed s => s end.

(** The pages a trace fetched, in order. *)
Definition fetched_pages (t : list event) : list nat :=
  flat_map (fun e => match e with Fetch _ page _ => [page] | _ => [] end) t.

Section Pages.

Context {codec : Codec}.

(** [products_count]: what [save_to_csv] returns for a page; neither the
    flag nor the file has a part in it. *)
Definition products_count (results : dict) (keyword : string) : option nat :=
  fst (fst (save_to_csv results keyword true None)).

(** The loop goes on to the next page: the page was saved with at least
    one row and the [break] test found a next page. *)
Definition page_continues (response : option dict) (keyword : string)
  : bool :=
  match response with
  | Some results =>
      match products_count results keyword, has_next results with
      | Some (S _), Some true => true
      | _, _ => false
      end
  | None => false
  end.

Definition is_header (l : line) : bool :=
  match l with Header _ => true | Data _ => false end.

Definition is_data (l : line) : Prop :=
  match l with Header _ => False | Data _ => True end.

(** The call writes a header row. *)
Definition writes_header (results : dict) (keyword : string) (append : bool)
           (f : file) : bool :=
  existsb is_header (snd (save_to_csv results keyword append f)).

(** The events of one keyword's pages, for searches numbered from [n]. *)
Fixpoint page_events (serp : nat -> string -> Z -> option dict)
         (pages : list nat) (keyword : string) (n : nat) : list event :=
  match pages with
  | [] => []
  | page :: rest =>
      Fetch keyword page (offset page)
        :: if page_continues (serp n keyword (offset page)) keyword
           then Sleep 1 :: page_events serp rest keyword (S n)
           else []
  end.

End Pages.

(** The file is one header followed by data rows. *)
Definition headed (f : file) : Prop :=
  exists rows, f = Some (Header fieldnames :: rows) /\ Forall is_data rows.

(** The file [f'] is the file [f] with data rows added at its end. *)
Definition grown (f f' : file) : Prop :=
  exists old added,
    f = Some old /\ f' = Some (old ++ added) /\ Forall is_data added.

(** Every fetch of a trace is followed by a sleep of [d], before the next
    fetch and before the trace ends. *)
Fixpoint delayed (d : nat) (pending : bool) (t : list event) : bool :=
  match t with
  | [] => negb pending
  | Fetch _ _ _ :: t' => negb pending && delayed d true t'
  | Sleep n :: t' =>
      if pending then (n =? d)%nat && delayed d false t'
      else delayed d false t'
  | _ :: t' => delayed d pending t'
  end.

End Search.

(** ** Loading the search API key: homedepo_product-search.py, lines 12-19 *)

Module Setup.
Import PyStr.

Definition KEY_PREFIX : string := "homedepot.apikey=".

(** [s.split(sep, 1)[1]] for a one-character separator; [None] is the
    IndexError when [s] has no separator. *)
Fixpoint after_first (sep : ascii) (s : string) : option string :=
  match s with
  | EmptyString => None
  | String c s' => if Ascii.eqb c sep then Some s' else after_first sep s'
  end.

(** What reading [.env] in text mode comes to. *)
Inductive env_read :=
| Unopened                            (* [open] raises *)
| Decoded (raw : string)              (* the bytes decode to this text *)
| Broken (delivered : list string).   (* the lines the iteration delivers
                                         before a UnicodeDecodeError *)

(** The [for line in env_file] loop with its [break]; [at_end] is what
    running out of lines comes to. *)
Fixpoint scan_env (lines : list string) (at_end : option (option string))
  : option (option string) :=
  match lines with
  | [] => at_end
  | line :: rest =>
      if String.prefix KEY_PREFIX line
      then match after_first "="%char (strip line) with
           | Some value => Some (Some value)
           | None => None
           end
      else scan_env rest at_end
  end.

(** The module-level code: [environ] is what [os.environ.get] returns.
    The outer [None] is an exception; inside is the value of [api_key]. *)
Definition load_api_key (environ : option string) (env_file : env_read)
  : option (option string) :=
  match environ with
  | Some ((String _ _) as key) => Some (Some key)
  | _ =>
      match env_file with
      | Unopened => None
      | Decoded raw =>
          scan_env (readlines (universal_newlines raw)) (Some environ)
      | Broken delivered => scan_env delivered None
      end
  end.

End Setup.

(** ** Shapes of Python values *)

Module PyShape.
Import Py.

(** [isinstance(v, dict)] *)
Definition is_dict (v : json) : bool :=
  match v with JObj _ => true | _ => false end.

(** A value that is no str. *)
Definition not_str (v : json) : bool :=
  match v with JStr _ => false | _ => true end.

End PyShape.

(** ** What a run of the detail pipeline leaves behind *)

Module DetailObs.
Import Py Detail.

(** The sleeps of a trace, in order. *)
Definition sleeps (t : list event) : list nat :=
  flat_map (fun e => match e with Sleep n => [n] | _ => [] end) t.

(** The number of flushes of a trace. *)
Definition flushes (t : list event) : nat :=
  List.length (filter (fun e => match e with Flush => true | _ => false end) t).

(** [fetch_product_data] with [MAX_RETRIES] set to [max_retries]. *)
Definition fetch_with (http : nat -> string -> option json)
           (max_retries : nat) (asin api_key : string) (s : state)
  : option dict * state :=
  fetch_attempts http max_retries (seq 0 max_retries) asin api_key s.

(** Request number [n], sent for [asin], brings no row. *)
Definition fails (http : nat -> string -> option json) (api_key : string)
           (n : nat) (asin : string) : bool :=
  match handle_response asin (http n (request_url asin api_key)) with
  | Row _ => false
  | _ => true
  end.

(** The keys of a list that bring no row, when the first key of the list is
    sent as request number [n] and every key takes one request. *)
Fixpoint failing (http : nat -> string -> option json) (api_key : string)
         (n : nat) (asin_list : list string) : list string :=
  match asin_list with
  | [] => []
  | asin :: rest =>
      (if fails http api_key n asin then [asin] else [])
        ++ failing http api_key (S n) rest
  end.

(** The pause after a failed attempt: none after the last one. *)
Definition pause (max_retries attempt : nat) : list nat :=
  if (attempt <? max_retries - 1)%nat
  then [REQUEST_DELAY * (attempt + 1)] else [].

(** An item of a details table that is a dict and is not named [wanted]. *)
Definition other_detail (wanted : string) (item : json) : Prop :=
  exists d, item = JObj d /\ eq_str (get d "name" JNull) wanted = false.

End DetailObs.

(** ** What a run of the search pipeline leaves behind *)

Module SearchObs.
Import Py Search.

(** The per-keyword reports of a trace: keyword and total. *)
Definition reports (t : list event) : list (string * nat) :=
  flat_map (fun e => match e with
                     | Report keyword total => [(keyword, total)]
                     | _ => []
                     end) t.

(** The number of data rows of the output file. *)
Definition data_rows (f : file) : nat :=
  match f with
  | Some ls => List.length (filter (fun l => negb (is_header l)) ls)
  | None => 0
  end.

(** The sum of the totals reported so far. *)
Definition reported (s : state) : nat :=
  list_sum (map snd (reports (trace s))).

(** Every save from this state on adds to the data rows of the file: the
    first write is done, or the file has no data row to lose. *)
Definition appending (s : state) : Prop :=
  first_write s = false \/ data_rows (output s) = 0.

(** A line as [save_to_csv] writes it for [keyword]: the fixed header, or
    one cell per field with the keyword first. *)
Definition well_formed (keyword : string) (l : line) : Prop :=
  match l with
  | Header names => names = fieldnames
  | Data cells =>
      List.length cells = List.length fieldnames
      /\ hd JNull cells = JStr keyword
  end.

(** A product the writer takes: a dict whose row the utf-8 file accepts. *)
Definition writable {codec : Csv.Codec} (keyword : string) (product : json)
  : bool :=
  match product_row keyword product with
  | Some cells => Csv.row_ok cells
  | None => false
  end.

End SearchObs.

(** * Properties *)

(** ** Input Reader *)

Module ReaderFacts.
Import PyStr Reader.

Lemma rstrip_empty_blank (s : string) :
  rstrip s = EmptyString <-> blank s = true.
Proof.
  induction s as [|c s IH]; simpl.
  - tauto.
  - destruct (rstrip s) eqn:E.
    + destruct (isspace c); simpl.
      * tauto.
      * split; discriminate.
    + split; [discriminate|].
      rewrite andb_true_iff. intros [_ H]. apply IH in H. discriminate.
Qed.

Lemma lstrip_blank (s : string) : blank s = true -> lstrip s = EmptyString.
Proof.
  induction s as [|c s IH]; simpl; [reflexivity|].
  destruct (isspace c); simpl; [exact IH | discriminate].
Qed.

Lemma lstrip_empty_blank (s : string) :
  lstrip s = EmptyString -> blank s = true.
Proof.
  induction s as [|c s IH]; simpl; [reflexivity|].
  destruct (isspace c); simpl; [exact IH | discriminate].
Qed.

Lemma rstrip_blank_iff (s : string) : blank (rstrip s) = blank s.
Proof.
  induction s as [|c s IH]; simpl; [reflexivity|].
  destruct (rstrip s) eqn:E.
  - assert (Hb : blank s = true) by (apply rstrip_empty_blank; exact E).
    rewrite Hb, andb_true_r.
    destruct (isspace c) eqn:Ec; simpl; rewrite ?Ec; reflexivity.
  - change (blank (String c (String a s0))) with (isspace c && blank (String a s0)).
    rewrite IH. reflexivity.
Qed.

(** A string strips to nothing exactly when it is blank. *)
Lemma strip_empty_blank (s : string) :
  nonempty (strip s) = negb (blank s).
Proof.
  unfold strip.
  destruct (blank s) eqn:Hb.
  - apply rstrip_empty_blank in Hb. rewrite Hb. reflexivity.
  - destruct (lstrip (rstrip s)) eqn:E; [|reflexivity].
    apply lstrip_empty_blank in E. rewrite rstrip_blank_iff in E. congruence.
Qed.

Lemma rstrip_idem (s : string) : rstrip (rstrip s) = rstrip s.
Proof.
  induction s as [|c s IH]; simpl; [reflexivity|].
  destruct (rstrip s) eqn:E.
  - destruct (isspace c) eqn:Ec; simpl; [reflexivity|]. rewrite Ec. reflexivity.
  - change (rstrip (String c (String a s0)))
      with (match rstrip (String a s0) with
            | EmptyString => if isspace c then EmptyString else String c EmptyString
            | r => String c r
            end).
    rewrite IH. reflexivity.
Qed.

Lemma lstrip_idem (s : string) : lstrip (lstrip s) = lstrip s.
Proof.
  induction s as [|c s IH]; simpl; [reflexivity|].
  destruct (isspace c) eqn:Ec; [exact IH|]. simpl. rewrite Ec. reflexivity.
Qed.

Lemma strip_comm (s : string) : rstrip (lstrip s) = lstrip (rstrip s).
Proof.
  induction s as [|c s IH]; simpl; [reflexivity|].
  destruct (isspace c) eqn:Ec.
  - rewrite IH. destruct (rstrip s) eqn:E; simpl; rewrite ?Ec; reflexivity.
  - change (rstrip (String c s))
      with (match rstrip s with
            | EmptyString => if isspace c then EmptyString else String c EmptyString
            | r => String c r
            end).
    destruct (rstrip s) eqn:E; rewrite ?Ec; simpl; rewrite Ec; reflexivity.
Qed.

Lemma strip_idem (s : string) : strip (strip s) = strip s.
Proof.
  unfold strip.
  rewrite (strip_comm (rstrip s)), rstrip_idem, lstrip_idem. reflexivity.
Qed.

Lemma kept_trimmed (entries : list string) :
  Forall trimmed
         (map strip (filter (fun e => nonempty (strip e)) entries)).
Proof.
  induction entries as [|e es IH]; simpl; [constructor|].
  destruct (nonempty (strip e)) eqn:E; [|exact IH].
  simpl. constructor; [|exact IH].
  split; [|apply strip_idem].
  pose proof (strip_empty_blank (strip e)) as H.
  rewrite strip_idem, E in H.
  destruct (blank (strip e)); [discriminate | reflexivity].
Qed.

Lemma filter_nonblank (entries : list string) :
  map strip (filter (fun e => nonempty (strip e)) entries)
  = nonblank_trimmed entries.
Proof.
  unfold nonblank_trimmed. f_equal.
  apply filter_ext. intro e. apply strip_empty_blank.
Qed.

(** *** Lines *)

Lemma readlines_split_on (s : string) :
  lines_match (readlines s) (split_on (Ascii.eqb LF) s).
Proof.
  induction s as [|c s IH]; cbn [readlines split_on].
  - constructor.
  - rewrite (Ascii.eqb_sym LF c).
    destruct (Ascii.eqb c LF) eqn:Ec.
    + apply Ascii.eqb_eq in Ec. subst c.
      apply (match_line EmptyString). exact IH.
    + inversion IH as [H1 H2 | l H1 H2 | p ls ps Hm H1 H2].
      * constructor.
      * constructor.
      * apply (match_line (String c p)). exact Hm.
Qed.

Lemma rstrip_LF (p : string) : rstrip (p ++ LFs) = rstrip p.
Proof.
  induction p as [|c p IH]; simpl; [reflexivity|].
  rewrite IH. reflexivity.
Qed.

Lemma blank_LF (p : string) : blank (p ++ LFs) = blank p.
Proof.
  induction p as [|c p IH]; simpl; [reflexivity|].
  rewrite IH. reflexivity.
Qed.

Lemma lines_match_kept (ls ps : list string) :
  lines_match ls ps -> nonblank_trimmed ls = nonblank_trimmed ps.
Proof.
  unfold nonblank_trimmed.
  induction 1 as [| l | p ls ps Hm IH]; simpl; try reflexivity.
  rewrite blank_LF.
  destruct (blank p); simpl; [exact IH|].
  unfold strip at 1 3. rewrite rstrip_LF. f_equal. exact IH.
Qed.

(** *** Tokens *)

Lemma no_space_strip (t : string) : no_space t = true -> strip t = t.
Proof.
  intro H. unfold strip.
  assert (Hr : rstrip t = t).
  { induction t as [|c t IH]; simpl in *; [reflexivity|].
    apply andb_true_iff in H. destruct H as [Hc Ht].
    rewrite (IH Ht). destruct t; [|reflexivity].
    destruct (isspace c); [discriminate | reflexivity]. }
  rewrite Hr. destruct t as [|c t]; simpl in *; [reflexivity|].
  destruct (isspace c); [discriminate | reflexivity].
Qed.

Lemma no_space_blank (t : string) :
  no_space t = true -> blank t = negb (nonempty t).
Proof.
  destruct t as [|c t]; simpl; [reflexivity|].
  destruct (isspace c); simpl; [discriminate | reflexivity].
Qed.

(** [split_scan] against the pieces between single whitespace
    characters: the word in progress is the first piece, the finished words
    are the other non-empty pieces. *)
Lemma split_scan_split_on (s : string) :
  exists p ps,
    split_on isspace s = p :: ps
    /\ split_scan s = (p, filter nonempty ps)
    /\ Forall (fun t => no_space t = true) (p :: ps).
Proof.
  induction s as [|c s (p & ps & Hs & Hscan & Hall)]; simpl.
  - exists EmptyString, []. repeat split. repeat constructor.
  - rewrite Hs, Hscan. destruct (isspace c) eqn:Ec.
    + exists EmptyString, (p :: ps). split; [reflexivity|]. split.
      * simpl. destruct p; reflexivity.
      * constructor; [reflexivity | exact Hall].
    + exists (String c p), ps. split; [reflexivity|]. split; [reflexivity|].
      inversion Hall; subst. constructor; [|assumption].
      simpl. rewrite Ec. assumption.
Qed.

Lemma split_scan_rstrip (s : string) : split_scan (rstrip s) = split_scan s.
Proof.
  induction s as [|c s IH]; simpl; [reflexivity|].
  destruct (rstrip s) eqn:E.
  - rewrite <- IH. simpl.
    destruct (isspace c) eqn:Ec; simpl; rewrite ?Ec; reflexivity.
  - rewrite <- IH.
    change (split_scan (String c (String a s0)))
      with (let (w, ws) := split_scan (String a s0) in
            if isspace c then (EmptyString, push_word w ws)
            else (String c w, ws)).
    reflexivity.
Qed.

Lemma split_lstrip (s : string) : split (lstrip s) = split s.
Proof.
  induction s as [|c s IH]; simpl; [reflexivity|].
  destruct (isspace c) eqn:Ec; [|reflexivity].
  rewrite IH. unfold split. simpl. rewrite Ec.
  destruct (split_scan s) as [w ws]. reflexivity.
Qed.

Lemma split_strip (s : string) : split (strip s) = split s.
Proof.
  unfold strip. rewrite split_lstrip. unfold split.
  rewrite split_scan_rstrip. reflexivity.
Qed.

Lemma kept_tokens (ts : list string) :
  Forall (fun t => no_space t = true) ts ->
  nonblank_trimmed ts = filter nonempty ts.
Proof.
  unfold nonblank_trimmed.
  induction 1 as [|t ts Ht Hts IH]; simpl; [reflexivity|].
  rewrite (no_space_blank t Ht), negb_involutive.
  destruct (nonempty t); simpl; [|exact IH].
  rewrite (no_space_strip t Ht), IH. reflexivity.
Qed.

Lemma split_tokens (s : string) :
  split s = nonblank_trimmed (split_on isspace s)
  /\ Forall word (split s).
Proof.
  destruct (split_scan_split_on s) as (p & ps & Hs & Hscan & Hall).
  unfold split. rewrite Hscan, Hs, (kept_tokens _ Hall).
  inversion Hall as [|? ? Hp Hps]; subst.
  assert (Hf : Forall word (filter nonempty ps)).
  { apply Forall_forall. intros t Ht. apply filter_In in Ht.
    rewrite Forall_forall in Hps. split; [apply Hps|]; apply Ht. }
  destruct p; simpl; split; auto.
  constructor; [split; [exact Hp | reflexivity] | exact Hf].
Qed.

Lemma kept_words (ts : list string) :
  Forall word ts -> nonblank_trimmed ts = ts.
Proof.
  unfold nonblank_trimmed.
  induction 1 as [|t ts [Ht Hn] Hts IH]; simpl; [reflexivity|].
  rewrite (no_space_blank t Ht), Hn. simpl.
  rewrite (no_space_strip t Ht), IH. reflexivity.
Qed.

(** *** What stripping does, said without [strip] *)

Lemma lstrip_cut (s : string) :
  exists before,
    s = (before ++ lstrip s)%string /\ blank before = true
    /\ (lstrip s = EmptyString \/ starts_clean (lstrip s) = true).
Proof.
  induction s as [|c s (before & Heq & Hb & Hs)].
  - exists EmptyString. repeat split. left. reflexivity.
  - simpl. destruct (isspace c) eqn:Ec.
    + exists (String c before). simpl. rewrite Ec, Hb.
      split; [f_equal; exact Heq|]. split; [reflexivity | exact Hs].
    + exists EmptyString. split; [reflexivity|]. split; [reflexivity|].
      right. simpl. rewrite Ec. reflexivity.
Qed.

Lemma rstrip_cut (s : string) :
  exists after,
    s = (rstrip s ++ after)%string /\ blank after = true
    /\ (rstrip s = EmptyString \/ ends_clean (rstrip s) = true).
Proof.
  induction s as [|c s (after & Heq & Hb & Hs)].
  - exists EmptyString. repeat split. left. reflexivity.
  - simpl. destruct (rstrip s) as [|a r] eqn:Er.
    + destruct (isspace c) eqn:Ec.
      * exists (String c after). simpl. rewrite Ec, Hb.
        split; [f_equal; exact Heq|]. split; [reflexivity|].
        left. reflexivity.
      * exists after. simpl. split; [f_equal; exact Heq|].
        split; [exact Hb|]. right. rewrite Ec. reflexivity.
    + exists after. split; [simpl; f_equal; exact Heq|].
      split; [exact Hb|]. right.
      destruct Hs as [Hs|Hs]; [discriminate | exact Hs].
Qed.

Lemma ends_clean_lstrip (s : string) :
  lstrip s <> EmptyString -> ends_clean (lstrip s) = ends_clean s.
Proof.
  induction s as [|c s IH]; [reflexivity|].
  cbn [lstrip]. destruct (isspace c) eqn:Ec; [|reflexivity].
  intro Hne. rewrite (IH Hne).
  destruct s as [|c' s']; [simpl in Hne; congruence | reflexivity].
Qed.

Lemma append_assoc (a b c : string) :
  ((a ++ b) ++ c)%string = (a ++ b ++ c)%string.
Proof. induction a as [|x a IH]; simpl; congruence. Qed.

(** A non-blank entry strips to its only trimmed core. *)
Lemma strip_trim_of (e : string) :
  blank e = false -> trim_of e (strip e).
Proof.
  intro Hb.
  assert (Hne : strip e <> EmptyString).
  { intro H. pose proof (strip_empty_blank e) as Hs.
    rewrite H, Hb in Hs. discriminate. }
  unfold strip in *.
  destruct (rstrip_cut e) as (after & Heq & Ha & Hend).
  destruct (lstrip_cut (rstrip e)) as (before & Heq' & Hbf & Hstart).
  exists before, after. split.
  - rewrite <- append_assoc, <- Heq'. exact Heq.
  - split; [exact Hbf|]. split; [exact Ha|]. split.
    + destruct Hstart as [H|H]; [congruence | exact H].
    + rewrite (ends_clean_lstrip _ Hne).
      destruct Hend as [H|H]; [|exact H].
      rewrite H in Hne. simpl in Hne. congruence.
Qed.

Lemma kept_are_trims (entries : list string) :
  Forall2 trim_of (nonblank entries) (nonblank_trimmed entries).
Proof.
  unfold nonblank, nonblank_trimmed.
  induction entries as [|e es IH]; simpl; [constructor|].
  destruct (blank e) eqn:Hb; simpl; [exact IH|].
  constructor; [apply strip_trim_of; exact Hb | exact IH].
Qed.

End ReaderFacts.

(** C8. For every input file, each pipeline's Input Reader returns exactly
    the non-blank entries of the file (the lines for the search pipeline,
    the whitespace-separated tokens for the detail pipeline), in file order,
    each with its surrounding whitespace trimmed: the returned keys pair off,
    one to one and in order, with the non-blank entries, each entry being its
    key between two runs of whitespace and each key neither starting nor
    ending with whitespace; no returned key is blank. *)
Theorem input_reader_keeps_nonblank_entries (raw : string) :
  Forall2 Reader.trim_of
          (Reader.nonblank (Reader.spec_lines raw))
          (Reader.read_keywords raw)
  /\ Forall2 Reader.trim_of
             (Reader.nonblank (Reader.spec_tokens raw))
             (Reader.read_asin_list raw)
  /\ Reader.read_keywords raw
     = Reader.nonblank_trimmed (Reader.spec_lines raw)
  /\ Reader.read_asin_list raw
     = Reader.nonblank_trimmed (Reader.spec_tokens raw)
  /\ Forall Reader.trimmed (Reader.read_keywords raw)
  /\ Forall Reader.trimmed (Reader.read_asin_list raw).
Proof.
  assert (Hk : Reader.read_keywords raw
               = Reader.nonblank_trimmed (Reader.spec_lines raw)).
  { unfold Reader.read_keywords, Reader.spec_lines.
    rewrite ReaderFacts.filter_nonblank.
    apply ReaderFacts.lines_match_kept, ReaderFacts.readlines_split_on. }
  assert (Ha : Reader.read_asin_list raw
               = Reader.nonblank_trimmed (Reader.spec_tokens raw)).
  { unfold Reader.read_asin_list, Reader.spec_tokens.
    rewrite ReaderFacts.filter_nonblank, ReaderFacts.split_strip.
    destruct (ReaderFacts.split_tokens (PyStr.universal_newlines raw))
      as [Heq Hall].
    rewrite (ReaderFacts.kept_words _ Hall). exact Heq. }
  split; [rewrite Hk; apply ReaderFacts.kept_are_trims|].
  split; [rewrite Ha; apply ReaderFacts.kept_are_trims|].
  split; [exact Hk|]. split; [exact Ha|].
  split; apply ReaderFacts.kept_trimmed.
Qed.

(** ** The detail pipeline *)

Module DetailFacts.
Import PyStr Py Csv Detail.

Section Facts.

Context {codec : Codec}.

Lemma slice_to_prefix (n : nat) (s : string) :
  (n <= String.length s)%nat ->
  exists rest, s = (slice_to n s ++ rest)%string
               /\ String.length (slice_to n s) = n.
Proof.
  revert s. induction n as [|n IH]; intros s Hn.
  - exists s. destruct s; split; reflexivity.
  - destruct s as [|c s]; simpl in Hn; [lia|].
    destruct (IH s) as (rest & Heq & Hlen); [lia|].
    exists rest. simpl. rewrite Hlen. split; [|reflexivity].
    f_equal. exact Heq.
Qed.

Lemma truncate_short (s : string) (n : nat) :
  (String.length s <= n)%nat -> truncate_text (JStr s) n = Some (JStr s).
Proof.
  intro H. unfold truncate_text. destruct s as [|c s]; [reflexivity|].
  cbn [truthy nonempty negb py_len bind].
  apply Nat.leb_le in H. rewrite H. reflexivity.
Qed.

Lemma truncate_long (s : string) (n : nat) :
  (n < String.length s)%nat ->
  truncate_text (JStr s) n = Some (JStr (slice_to n s ++ "...")%string).
Proof.
  intro H. unfold truncate_text. destruct s as [|c s]; [simpl in H; lia|].
  cbn [truthy nonempty negb py_len bind].
  apply Nat.leb_gt in H. rewrite H. reflexivity.
Qed.

(** The row of a payload always has the eighteen fields. *)
Lemma make_row_fields (asin : string) (product row : dict) :
  make_row asin product = Some row ->
  map fst row = CSV_FIELDS
  /\ lookup "description" row
     = truncate_text (get product "description" (JStr "")) 1000.
Proof.
  unfold make_row, bind. intro H.
  repeat match type of H with
         | match ?x with Some _ => _ | None => _ end = _ =>
             let E := fresh "E" in destruct x eqn:E; [|discriminate]
         end.
  injection H as <-. split; reflexivity.
Qed.

(** One attempt is all [fetch_product_data] makes. *)
Lemma fetch_product_data_once (http : nat -> string -> option json)
      (asin api_key : string) (s : state) :
  fetch_product_data http asin api_key s =
  let s1 := count_request (emit (Request (request_url asin api_key)) s) in
  match handle_response asin (http (requests s) (request_url asin api_key)) with
  | Row csv_row => (Some csv_row, s1)
  | ApiError message => (None, emit (LogApiError 1 1 message) s1)
  | Raised => (None, emit (LogException 1 1) s1)
  end.
Proof.
  unfold fetch_product_data. simpl.
  destruct (handle_response asin _); reflexivity.
Qed.

(** What a fetched row looks like once the quota counter is taken out. *)
Lemma fetched_row (asin : string) (response : option json) (csv_row : dict) :
  handle_response asin response = Row csv_row ->
  let written := del_item "remaining_credits" csv_row in
  map fst written = CSV_FIELDS
  /\ lookup "remaining_credits" written = None
  /\ writerow CSV_FIELDS written
     = (if row_ok (map snd written) then Some (map snd written) else None)
  /\ (exists kv rest, csv_row = kv :: rest)
  /\ (lookup "remaining_credits" csv_row = None -> written = csv_row).
Proof.
  unfold handle_response. intro H.
  destruct response as [[| | | | |data]|]; try discriminate.
  destruct (lookup "detail" data) as [[| | | | |product]|]; try discriminate.
  destruct (make_row asin product) as [row|] eqn:Hrow; [|discriminate].
  unfold make_row, bind in Hrow.
  repeat match type of Hrow with
         | match ?x with Some _ => _ | None => _ end = _ =>
             let E := fresh "E" in destruct x eqn:E; [|discriminate]
         end.
  injection Hrow as <-.
  destruct (lookup "remaining_credits" data); injection H as <-;
    cbv zeta; repeat split; try reflexivity; eauto;
    simpl; discriminate.
Qed.

Lemma handle_asin_cases (http : nat -> string -> option json)
      (asin api_key : string) (s : state) :
  let s1 := count_request (emit (Request (request_url asin api_key)) s) in
  handle_asin http asin api_key s =
  match handle_response asin (http (requests s) (request_url asin api_key)) with
  | Row csv_row =>
      let cells := map snd (del_item "remaining_credits" csv_row) in
      let s2 := match lookup "remaining_credits" csv_row with
                | Some credits => set_credits credits s1
                | None => s1
                end in
      if row_ok cells then Completed (write_line cells s2) else Aborted s2
  | ApiError message =>
      Completed (add_failed asin (emit (LogApiError 1 1 message) s1))
  | Raised => Completed (add_failed asin (emit (LogException 1 1) s1))
  end.
Proof.
  intro s1. unfold handle_asin. rewrite fetch_product_data_once. fold s1.
  destruct (handle_response asin _) as [csv_row| |] eqn:Hr; try reflexivity.
  destruct (fetched_row _ _ _ Hr) as (Hk & _ & Hw & (kv & rest & ->) & Hsame).
  cbv beta iota zeta in *.
  destruct (lookup "remaining_credits" (kv :: rest)) eqn:Hl.
  - rewrite Hw. destruct (row_ok _); reflexivity.
  - rewrite Hsame in * by reflexivity. rewrite Hw.
    destruct (row_ok _); reflexivity.
Qed.

(** The events of one iteration: the request, at most one log line, the
    periodic flush, the delay; or, when the writer refuses the row, the
    request alone. *)
Lemma iteration_trace (http : nat -> string -> option json)
      (i : nat) (asin api_key : string) (s : state) :
  match handle_asin http asin api_key s with
  | Completed s1 =>
      exists logs,
        forallb quiet logs = true
        /\ trace (after_asin i s1)
           = trace s ++ Request (request_url asin api_key) :: logs
                     ++ [Sleep REQUEST_DELAY]
        /\ requests (after_asin i s1) = S (requests s)
        /\ success_count (after_asin i s1)
           + List.length (failed_asins (after_asin i s1))
           = S (success_count s + List.length (failed_asins s))
        /\ exists rows,
            csvfile (after_asin i s1) = csvfile s ++ rows
            /\ Forall (fun cells =>
                         List.length cells = List.length CSV_FIELDS)
                      rows
  | Aborted s1 =>
      trace s1 = trace s ++ [Request (request_url asin api_key)]
      /\ requests s1 = S (requests s)
      /\ csvfile s1 = csvfile s
      /\ success_count s1 = success_count s
      /\ failed_asins s1 = failed_asins s
  end.
Proof.
  rewrite (handle_asin_cases http asin api_key s). cbv zeta.
  unfold after_asin.
  destruct (handle_response asin _) as [csv_row|message|] eqn:Hr.
  - destruct (row_ok _).
    + exists (if ((i + 1) mod 10 =? 0)%nat then [Flush] else []).
      destruct (fetched_row _ _ _ Hr) as (Hk & _).
      apply (f_equal (@List.length string)) in Hk. rewrite length_map in Hk.
      destruct (lookup "remaining_credits" csv_row);
        destruct ((i + 1) mod 10 =? 0)%nat; simpl;
        rewrite <- ?app_assoc, ?length_app; simpl; repeat split; try lia;
        (eexists; split; [reflexivity|]);
        (constructor; [rewrite length_map; exact Hk | constructor]).
    + destruct (lookup "remaining_credits" csv_row); simpl; repeat split.
  - exists (LogApiError 1 1 message
              :: if ((i + 1) mod 10 =? 0)%nat then [Flush] else []).
    destruct ((i + 1) mod 10 =? 0)%nat; simpl;
      rewrite <- ?app_assoc, ?length_app; simpl; repeat split; try lia;
      (exists []; rewrite app_nil_r; split; [reflexivity | constructor]).
  - exists (LogException 1 1
              :: if ((i + 1) mod 10 =? 0)%nat then [Flush] else []).
    destruct ((i + 1) mod 10 =? 0)%nat; simpl;
      rewrite <- ?app_assoc, ?length_app; simpl; repeat split; try lia;
      (exists []; rewrite app_nil_r; split; [reflexivity | constructor]).
Qed.

Lemma requested_urls_app (t u : list event) :
  requested_urls (t ++ u) = requested_urls t ++ requested_urls u.
Proof. unfold requested_urls. apply flat_map_app. Qed.

Lemma requested_urls_quiet (logs : list event) :
  forallb quiet logs = true -> requested_urls logs = [].
Proof.
  induction logs as [|e logs IH]; simpl; [reflexivity|].
  rewrite andb_true_iff. intros [He Hl].
  destruct e; try discriminate; simpl; auto.
Qed.

Lemma delayed_quiet (d : nat) (pending : bool) (logs t : list event) :
  forallb quiet logs = true ->
  delayed d pending (logs ++ t) = delayed d pending t.
Proof.
  induction logs as [|e logs IH]; simpl; [reflexivity|].
  rewrite andb_true_iff. intros [He Hl].
  destruct e; try discriminate; simpl; auto.
Qed.

Lemma delayed_app (d : nat) (t u : list event) (pending : bool) :
  delayed d pending t = true ->
  delayed d pending (t ++ u) = delayed d false u.
Proof.
  revert pending. induction t as [|e t IH]; intros pending H; simpl in *.
  - destruct pending; [discriminate | reflexivity].
  - destruct e; auto.
    + apply andb_true_iff in H. destruct H as [Hp Ht].
      rewrite Hp. simpl. auto.
    + destruct pending; auto.
      apply andb_true_iff in H. destruct H as [Hn Ht].
      rewrite Hn. simpl. auto.
Qed.

(** The whole loop.  Run to its end, it has sent one request per key, in
    order, slept after each, and accounted for every key.  Ended by the
    writer, it has done so for the keys before the one whose row was
    refused, and sent that key's request last. *)
Lemma process_run (http : nat -> string -> option json)
      (asin_list : list string) (api_key : string) (i : nat) (s : state) :
  (exists rows,
      csvfile (state_of (process http i asin_list api_key s))
      = csvfile s ++ rows
      /\ Forall (fun cells => List.length cells = List.length CSV_FIELDS)
                rows)
  /\ match process http i asin_list api_key s with
     | Completed s' =>
         requested_urls (trace s')
         = requested_urls (trace s)
             ++ map (fun asin => request_url asin api_key) asin_list
         /\ requests s' = requests s + List.length asin_list
         /\ (delayed REQUEST_DELAY false (trace s) = true ->
             delayed REQUEST_DELAY false (trace s') = true)
         /\ success_count s' + List.length (failed_asins s')
            = success_count s + List.length (failed_asins s)
              + List.length asin_list
     | Aborted s' =>
         exists done asin rest,
           asin_list = done ++ asin :: rest
           /\ requested_urls (trace s')
              = requested_urls (trace s)
                  ++ map (fun asin => request_url asin api_key)
                         (done ++ [asin])
           /\ requests s' = requests s + S (List.length done)
           /\ (delayed REQUEST_DELAY false (trace s) = true ->
               exists t,
                 trace s' = t ++ [Request (request_url asin api_key)]
                 /\ delayed REQUEST_DELAY false t = true)
           /\ success_count s' + List.length (failed_asins s')
              = success_count s + List.length (failed_asins s)
                + List.length done
     end.
Proof.
  revert i s. induction asin_list as [|asin rest IH]; intros i s.
  - simpl. split.
    + exists []. rewrite app_nil_r. split; [reflexivity | constructor].
    + rewrite app_nil_r. repeat split; auto; lia.
  - cbn [process].
    pose proof (iteration_trace http i asin api_key s) as Hit.
    destruct (handle_asin http asin api_key s) as [s1|s1].
    + destruct Hit as (logs & Hq & Ht & Hr & Hc & rows1 & Hf1 & Hrows1).
      destruct (IH (S i) (after_asin i s1)) as [(rows2 & Hf2 & Hrows2) Hrun].
      split.
      * exists (rows1 ++ rows2). rewrite Hf2, Hf1, <- app_assoc.
        split; [reflexivity | apply Forall_app; split; assumption].
      * assert (Hu : requested_urls (trace (after_asin i s1))
                     = requested_urls (trace s)
                         ++ [request_url asin api_key]).
        { rewrite Ht, requested_urls_app. simpl.
          rewrite requested_urls_app, (requested_urls_quiet _ Hq).
          reflexivity. }
        assert (Hd : delayed REQUEST_DELAY false (trace s) = true ->
                     delayed REQUEST_DELAY false (trace (after_asin i s1))
                     = true).
        { intro H0. rewrite Ht, (delayed_app _ _ _ _ H0). simpl.
          rewrite (delayed_quiet _ _ _ _ Hq). simpl.
          rewrite ?Nat.eqb_refl. reflexivity. }
        destruct (process http (S i) rest api_key (after_asin i s1))
          as [s'|s'].
        -- destruct Hrun as (Hu' & Hn' & Hd' & Hc').
           rewrite Hu', Hn', Hu, Hr, <- app_assoc. simpl.
           repeat split; auto; lia.
        -- destruct Hrun as (done & a & rest' & -> & Hu' & Hn' & Hd' & Hc').
           exists (asin :: done), a, rest'.
           rewrite Hu', Hn', Hu, Hr, <- app_assoc. simpl.
           repeat split; auto; lia.
    + destruct Hit as (Ht & Hr & Hf & Hs & Hfa). simpl. split.
      * exists []. rewrite app_nil_r. split; [exact Hf | constructor].
      * exists [], asin, rest. rewrite Ht, requested_urls_app, Hr, Hs, Hfa.
        simpl. repeat split; try lia.
        intro H0. exists (trace s). split; [reflexivity | exact H0].
Qed.

End Facts.

End DetailFacts.

(** C3. With the character budget 1000, a description longer than 1000
    characters is normalized to exactly its first 1000 characters followed
    by the three characters "..."; a description of at most 1000 characters
    is returned unchanged; and this is what the row's description field
    holds. *)
Theorem description_truncated_to_budget (description : string) :
  ((1000 < String.length description)%nat ->
   exists first rest,
     description = (first ++ rest)%string
     /\ String.length first = 1000
     /\ Detail.truncate_text (Py.JStr description) 1000
        = Some (Py.JStr (first ++ "...")%string))
  /\ ((String.length description <= 1000)%nat ->
      Detail.truncate_text (Py.JStr description) 1000
      = Some (Py.JStr description))
  /\ (forall asin product row,
         Py.lookup "description" product = Some (Py.JStr description) ->
         Detail.make_row asin product = Some row ->
         Py.lookup "description" row
         = Detail.truncate_text (Py.JStr description) 1000).
Proof.
  split; [|split].
  - intro H.
    destruct (DetailFacts.slice_to_prefix 1000 description)
      as (rest & Heq & Hlen); [lia|].
    exists (PyStr.slice_to 1000 description), rest.
    split; [exact Heq|]. split; [exact Hlen|].
    apply DetailFacts.truncate_long. exact H.
  - apply DetailFacts.truncate_short.
  - intros asin product row Hd Hrow.
    destruct (DetailFacts.make_row_fields _ _ _ Hrow) as [_ H].
    rewrite H. unfold Py.get. rewrite Hd. reflexivity.
Qed.

Lemma description_truncated_witness :
  (exists first rest,
      string_of_list_ascii (repeat "a"%char 1001) = (first ++ rest)%string
      /\ String.length first = 1000
      /\ Detail.truncate_text
           (Py.JStr (string_of_list_ascii (repeat "a"%char 1001))) 1000
         = Some (Py.JStr (first ++ "...")%string))
  /\ Detail.truncate_text (Py.JStr "short") 1000 = Some (Py.JStr "short").
Proof.
  split.
  - apply (proj1 (description_truncated_to_budget
                    (string_of_list_ascii (repeat "a"%char 1001)))).
    apply Nat.ltb_lt. vm_compute. reflexivity.
  - apply (proj1 (proj2 (description_truncated_to_budget "short"))).
    apply Nat.leb_le. vm_compute. reflexivity.
Defined.

(** C2, as stated, fails: a success payload without the in_stock field
    gives an availability flag of True, which is none of the empty
    defaults. *)
Lemma availability_is_not_an_empty_default :
  exists row value,
    Detail.handle_response "B000123"
      (Some (Py.JObj [("detail", Py.JObj [])])) = Detail.Row row
    /\ Py.lookup "in_stock" [] = None
    /\ Py.lookup "availability" row = Some value
    /\ Detail.is_empty_default value = false.
Proof.
  eexists. exists (Py.JBool true). repeat split.
Qed.

(** C2, amended. For every success payload, an output field derived from
    a source field that the payload lacks holds the formatting of that
    field's default: the empty string for the plain and the joined fields
    and for the weight lookup, the JSON text of the empty string for the
    dimensions lookup, the JSON text of the empty structure for the
    specification table and the variants, and True for the availability
    flag.  A payload with no field at all is normalized without error. *)
Theorem missing_fields_take_defaults (asin : string) (product : Py.dict) :
  (forall row,
      Detail.make_row asin product = Some row ->
      Forall (fun entry =>
                match entry with
                | (source, field, default) =>
                    Py.lookup source product = None ->
                    Py.lookup field row = Some default
                end)
             Detail.field_defaults)
  /\ Detail.make_row asin []
     = Some (("asin", Py.JStr asin)
               :: map (fun entry =>
                         match entry with
                         | (_, field, default) => (field, default)
                         end)
                      Detail.field_defaults).
Proof.
  split; [|reflexivity].
  intros row Hrow. unfold Detail.make_row, Detail.bind in Hrow.
  repeat match type of Hrow with
         | match ?x with Some _ => _ | None => _ end = _ =>
             let E := fresh "E" in destruct x eqn:E; [|discriminate]
         end.
  injection Hrow as <-.
  unfold Detail.field_defaults.
  repeat (apply Forall_cons; [|]); try apply Forall_nil;
    intro Hmiss;
    unfold Detail.detail_named, Detail.bind, Py.get, Py.py_join,
      Detail.truncate_text in *;
    rewrite Hmiss in *;
    repeat (simpl in *;
            match goal with
            | H : Some _ = Some _ |- _ => injection H as ?; subst
            end);
    try reflexivity.
Qed.

Lemma missing_fields_witness :
  Forall (fun entry =>
            match entry with
            | (source, field, default) =>
                Py.lookup source [("name", Py.JStr "Cable")] = None ->
                Py.lookup field
                  (("asin", Py.JStr "B000123")
                     :: ("name", Py.JStr "Cable")
                     :: tl (map (fun entry =>
                                   match entry with
                                   | (_, field, default) => (field, default)
                                   end)
                                Detail.field_defaults))
                = Some default
            end)
         Detail.field_defaults.
Proof.
  apply (proj1 (missing_fields_take_defaults
                  "B000123" [("name", Py.JStr "Cable")])).
  reflexivity.
Defined.



(** C7. A fetched row, once its remaining_credits entry is removed, has
    exactly the eighteen schema fields in header order, and the line written
    for it is its eighteen values in that order; the writer never refuses a
    row for a field outside the schema (it refuses only a text that utf-8
    cannot encode, and then writes nothing of the row).  So in every run the
    file starts with the header and every data row has one cell per header
    field. *)
Theorem written_rows_follow_the_schema {codec : Csv.Codec}
        (http : nat -> string -> option Py.json) :
  (forall asin api_key s product_data s1,
      Detail.fetch_product_data http asin api_key s
      = (Some product_data, s1) ->
      let written := Py.del_item "remaining_credits" product_data in
      map fst written = Detail.CSV_FIELDS
      /\ Py.lookup "remaining_credits" written = None
      /\ (Csv.row_ok (map snd written) = true ->
          exists s2,
            Detail.handle_asin http asin api_key s = Detail.Completed s2
            /\ Detail.csvfile s2 = Detail.csvfile s ++ [map snd written])
      /\ (Csv.row_ok (map snd written) = false ->
          exists s2,
            Detail.handle_asin http asin api_key s = Detail.Aborted s2
            /\ Detail.csvfile s2 = Detail.csvfile s))
  /\ (forall limit api_key input_file asin_list result,
         Detail.main http limit api_key input_file
         = Detail.Ran asin_list result ->
         exists rows,
           Detail.csvfile (Detail.state_of result)
           = map Py.JStr Detail.CSV_FIELDS :: rows
           /\ Forall (fun cells =>
                        List.length cells = List.length Detail.CSV_FIELDS)
                     rows).
Proof.
  split.
  - intros asin api_key s product_data s1 Hf written.
    pose proof (DetailFacts.handle_asin_cases http asin api_key s) as Hh.
    rewrite DetailFacts.fetch_product_data_once in Hf.
    cbv zeta in Hh, Hf.
    destruct (Detail.handle_response asin _) as [csv_row| |] eqn:Hr;
      try discriminate.
    injection Hf as -> _.
    destruct (DetailFacts.fetched_row _ _ _ Hr) as (Hk & Hn & _).
    split; [exact Hk|]. split; [exact Hn|].
    fold written in Hh. split; intro Hok; rewrite Hok in Hh;
      (eexists; split; [exact Hh|]);
      destruct (Py.lookup "remaining_credits" product_data); reflexivity.
  - intros limit api_key input_file asin_list result Hmain.
    unfold Detail.main in Hmain.
    destruct api_key as [[|c key]|]; try discriminate.
    destruct input_file as [raw|]; try discriminate.
    injection Hmain as <- <-.
    destruct (DetailFacts.process_run http
                (Detail.apply_limit limit (Reader.read_asin_list raw))
                (String c key) 0 Detail.initial)
      as [(rows & Hf & Hrows) _].
    exists rows. split; [exact Hf | exact Hrows].
Qed.

Lemma written_rows_witness :
  exists s2,
    Detail.handle_asin (codec := Csv.plain)
      (fun _ _ =>
         Some (Py.JObj [("detail", Py.JObj [("name", Py.JStr "Cable")]);
                        ("remaining_credits", Py.JNum (Py.Int 7))]))
      "B000123" "k" Detail.initial
    = Detail.Completed s2
    /\ Detail.csvfile s2
       = [ map Py.JStr Detail.CSV_FIELDS;
           [ Py.JStr "B000123"; Py.JStr "Cable"; Py.JStr ""; Py.JStr "";
             Py.JStr ""; Py.JStr ""; Py.JStr ""; Py.JStr ""; Py.JBool true;
             Py.JStr ""; Py.JStr ""; Py.JStr "";
             Py.JStr (Py.dumps (Py.JStr "")); Py.JStr "{}"; Py.JStr "";
             Py.JStr ""; Py.JStr ""; Py.JStr "{}" ] ].
Proof.
  destruct (proj1 (written_rows_follow_the_schema (codec := Csv.plain)
                     (fun _ _ =>
                        Some (Py.JObj [("detail",
                                        Py.JObj [("name", Py.JStr "Cable")]);
                                       ("remaining_credits",
                                        Py.JNum (Py.Int 7))])))
                  "B000123" "k" Detail.initial _ _ eq_refl)
    as (_ & _ & Hok & _).
  destruct (Hok eq_refl) as (s2 & H & Hc).
  exists s2. split; [exact H|]. rewrite Hc. reflexivity.
Defined.

(** C9, as stated, fails: with the limit 2 and three keys in the file, a
    first row that the utf-8 file refuses ends the run after one request,
    so fewer than min(K, total) keys are processed. *)
Lemma write_error_cuts_the_run_short :
  exists s,
    Detail.main (codec := Csv.marked)
      (fun _ _ =>
         Some (Py.JObj [("detail",
                         Py.JObj [("name",
                                   Py.JStr (String "237"%char ""))])]))
      2 (Some "k") (Some "B01 B02 B03")
    = Detail.Ran ["B01"; "B02"] (Detail.Aborted s)
    /\ Detail.requested_urls (Detail.trace s) = [Detail.request_url "B01" "k"]
    /\ Detail.requests s = 1
    /\ Nat.min 2 (List.length (Reader.read_asin_list "B01 B02 B03")) = 2.
Proof. eexists. repeat split. Qed.

(** C9, amended. With a limit K > 0 the detail pipeline takes exactly the
    first min(K, total) keys, in order, as the keys to process, and with the
    limit zero the full sequence.  A run that no write error ends processes
    exactly these keys, one request each, in order; a run that a write error
    ends has processed the keys up to the one whose row was refused. *)
Theorem limit_caps_the_processed_keys {codec : Csv.Codec}
        (http : nat -> string -> option Py.json)
        (K : Z) (api_key raw : string) :
  api_key <> EmptyString ->
  let keys := Reader.read_asin_list raw in
  let total := List.length keys in
  let url := fun asin => Detail.request_url asin api_key in
  exists processed result,
    Detail.main http K (Some api_key) (Some raw)
    = Detail.Ran processed result
    /\ ((0 < K)%Z ->
        processed = firstn (Nat.min (Z.to_nat K) total) keys
        /\ List.length processed = Nat.min (Z.to_nat K) total)
    /\ (K = 0%Z -> processed = keys)
    /\ match result with
       | Detail.Completed s =>
           Detail.requested_urls (Detail.trace s) = map url processed
           /\ Detail.success_count s + List.length (Detail.failed_asins s)
              = List.length processed
       | Detail.Aborted s =>
           exists done asin rest,
             processed = done ++ asin :: rest
             /\ Detail.requested_urls (Detail.trace s)
                = map url (done ++ [asin])
             /\ Detail.success_count s + List.length (Detail.failed_asins s)
                = List.length done
       end.
Proof.
  intros Hkey keys total url.
  exists (Detail.apply_limit K keys),
         (Detail.process http 0 (Detail.apply_limit K keys) api_key
                         Detail.initial).
  split.
  { unfold Detail.main. destruct api_key; [congruence | reflexivity]. }
  split; [|split].
  - unfold Detail.apply_limit.
    intro HK. apply Z.ltb_lt in HK. rewrite HK.
    rewrite length_firstn. fold total. split; [|reflexivity].
    destruct (Nat.le_ge_cases (Z.to_nat K) total) as [Hle|Hge].
    + rewrite Nat.min_l by exact Hle. reflexivity.
    + rewrite Nat.min_r by exact Hge.
      unfold total. rewrite firstn_all. apply firstn_all2. exact Hge.
  - intros ->. reflexivity.
  - destruct (DetailFacts.process_run http (Detail.apply_limit K keys)
                api_key 0 Detail.initial) as [_ Hrun].
    destruct (Detail.process http 0 (Detail.apply_limit K keys) api_key
                             Detail.initial) as [s|s].
    + destruct Hrun as (Hu & _ & _ & Hc). split; [exact Hu | exact Hc].
    + destruct Hrun as (done & asin & rest & Hl & Hu & _ & _ & Hc).
      exists done, asin, rest. repeat split; assumption.
Qed.

Lemma limit_caps_witness :
  exists processed result,
    Detail.main (codec := Csv.plain) (fun _ _ => None) 2 (Some "k")
                (Some "B01 B02 B03")
    = Detail.Ran processed result
    /\ processed = ["B01"; "B02"]
    /\ List.length processed = 2.
Proof.
  destruct (limit_caps_the_processed_keys (codec := Csv.plain)
              (fun _ _ => None) 2 "k" "B01 B02 B03" ltac:(discriminate))
    as (processed & result & Hm & HK & _).
  destruct (HK eq_refl) as [Hp Hl].
  exists processed, result.
  split; [exact Hm|]. split; [exact Hp | exact Hl].
Defined.

(** ** The search pipeline *)

Module SearchFacts.
Import PyStr Py Csv Search.

Section Facts.

Context {codec : Codec}.

Lemma chars_length (s : string) : List.length (chars s) = String.length s.
Proof. induction s as [|c s IH]; simpl; congruence. Qed.

Lemma py_iter_len (v : json) (items : list json) :
  py_iter v = Some items -> py_len v = Some (List.length items).
Proof.
  destruct v; simpl; try discriminate; intro H; injection H as <-.
  - rewrite chars_length. reflexivity.
  - reflexivity.
  - rewrite length_map. reflexivity.
Qed.

Lemma write_products_rows (keyword : string) (products : list json) :
  Forall is_data (fst (write_products keyword products))
  /\ (snd (write_products keyword products) = true ->
      List.length (fst (write_products keyword products))
      = List.length products).
Proof.
  induction products as [|product rest [IH1 IH2]]; simpl.
  - split; [constructor | reflexivity].
  - destruct (product_row keyword product) as [cells|]; simpl.
    + destruct (row_ok cells); simpl.
      * destruct (write_products keyword rest) as [rows done]. simpl in *.
        split; [constructor; [exact I | exact IH1]|].
        intro H. rewrite (IH2 H). reflexivity.
      * split; [constructor | discriminate].
    + split; [constructor | discriminate].
Qed.

(** What a call with products does to the file. *)
Lemma save_with_products (results : dict) (keyword : string)
      (append : bool) (f : file) (products : json) :
  lookup "products" results = Some products ->
  truthy products = true ->
  exists rows,
    Forall is_data rows
    /\ snd (save_to_csv results keyword append f)
       = (if negb append || match f with Some _ => false | None => true end
          then [Header fieldnames] else []) ++ rows
    /\ snd (fst (save_to_csv results keyword append f))
       = Some (open_file append f
                 ++ snd (save_to_csv results keyword append f))
    /\ (forall n,
           fst (fst (save_to_csv results keyword append f)) = Some n ->
           List.length rows = n).
Proof.
  intros Hp Ht. unfold save_to_csv. rewrite Hp, Ht. simpl.
  assert (Hh : (negb match f with Some _ => true | None => false end
                || negb append)
               = (negb append
                  || match f with Some _ => false | None => true end)).
  { destruct f, append; reflexivity. }
  rewrite Hh. clear Hh.
  destruct (py_iter products) as [items|] eqn:Hi.
  - pose proof (write_products_rows keyword items) as [Hd Hl].
    destruct (write_products keyword items) as [rows [|]]; simpl in *;
      exists rows; repeat split; auto; try discriminate.
    intros n Hn. rewrite (py_iter_len _ _ Hi) in Hn.
    injection Hn as <-. auto.
  - exists []. repeat split; auto; try discriminate.
Qed.

(** The count a call returns depends on the results alone. *)
Lemma save_count (results : dict) (keyword : string) (append : bool)
      (f : file) :
  fst (fst (save_to_csv results keyword append f))
  = products_count results keyword.
Proof.
  unfold products_count, save_to_csv.
  destruct (lookup "products" results) as [products|]; [|reflexivity].
  destruct (truthy products); [|reflexivity]. simpl.
  destruct (py_iter products) as [items|]; [|reflexivity].
  destruct (write_products keyword items) as [rows [|]]; reflexivity.
Qed.

(** One page: the loop either goes on, after a sleep, or is left. *)
Lemma fetch_pages_step (serp : nat -> string -> Z -> option dict)
      (page : nat) (rest : list nat) (keyword : string)
      (total : nat) (s : state) :
  let fetched := trace s ++ [Fetch keyword page (offset page)] in
  if page_continues (serp (requests s) keyword (offset page)) keyword
  then exists f total',
      fetch_pages serp (page :: rest) keyword total s
      = fetch_pages serp rest keyword total'
          (mkState (S (requests s)) (fetched ++ [Sleep 1]) f false)
  else exists r f fw,
      fetch_pages serp (page :: rest) keyword total s
      = (r, mkState (S (requests s)) fetched f fw).
Proof.
  intro fetched. unfold page_continues. cbn [fetch_pages].
  unfold search_home_depot. cbv zeta. cbn [requests trace output first_write].
  fold fetched.
  destruct (serp (requests s) keyword (offset page)) as [results|];
    [|do 3 eexists; reflexivity].
  rewrite <- (save_count results keyword (negb (first_write s)) (output s)).
  destruct (save_to_csv results keyword (negb (first_write s)) (output s))
    as [[[n|] f] lines]; simpl; [|do 3 eexists; reflexivity].
  destruct (has_next results) as [[|]|];
    destruct n as [|n]; simpl; unfold emit; simpl;
    repeat eexists.
Qed.

Lemma fetch_pages_events (serp : nat -> string -> Z -> option dict)
      (pages : list nat) (keyword : string) (total : nat) (s : state) :
  trace (snd (fetch_pages serp pages keyword total s))
  = trace s ++ page_events serp pages keyword (requests s)
  /\ requests (snd (fetch_pages serp pages keyword total s))
     = requests s
       + List.length
           (fetched_pages (page_events serp pages keyword (requests s))).
Proof.
  revert total s. induction pages as [|page rest IH]; intros total s.
  - simpl. rewrite app_nil_r. split; [reflexivity | lia].
  - pose proof (fetch_pages_step serp page rest keyword total s) as H.
    cbv zeta in H. cbn [page_events].
    destruct (page_continues _ keyword).
    + destruct H as (f & total' & ->).
      destruct (IH total'
                  (mkState (S (requests s))
                     ((trace s ++ [Fetch keyword page (offset page)])
                        ++ [Sleep 1]) f false)) as [Ht Hr].
      rewrite Ht, Hr. simpl. rewrite <- !app_assoc. simpl.
      split; [reflexivity | lia].
    + destruct H as (r & f & fw & ->). simpl. split; [reflexivity | lia].
Qed.

(** *** The header, once established, stays alone at the top *)

Lemma save_keeps_headed (results : dict) (keyword : string) (f : file) :
  headed f -> headed (snd (fst (save_to_csv results keyword true f))).
Proof.
  intros (rows & -> & Hrows).
  destruct (lookup "products" results) as [products|] eqn:Hp.
  - destruct (truthy products) eqn:Ht.
    + destruct (save_with_products results keyword true
                  (Some (Header fieldnames :: rows)) products Hp Ht)
        as (added & Hadded & Hw & Hf & _).
      rewrite Hf, Hw. simpl.
      exists (rows ++ added). split; [reflexivity|].
      apply Forall_app. split; assumption.
    + unfold save_to_csv. rewrite Hp, Ht. simpl.
      exists rows. split; [reflexivity | assumption].
  - unfold save_to_csv. rewrite Hp. simpl.
    exists rows. split; [reflexivity | assumption].
Qed.

Lemma fetch_pages_keeps_headed (serp : nat -> string -> Z -> option dict)
      (pages : list nat) (keyword : string) (total : nat) (s : state) :
  first_write s = false -> headed (output s) ->
  first_write (snd (fetch_pages serp pages keyword total s)) = false
  /\ headed (output (snd (fetch_pages serp pages keyword total s))).
Proof.
  revert total s. induction pages as [|page rest IH]; intros total s Hfw Hh.
  - simpl. split; assumption.
  - cbn [fetch_pages]. unfold search_home_depot. cbv zeta.
    cbn [requests trace output first_write].
    destruct (serp (requests s) keyword (offset page)) as [results|];
      [|simpl; split; assumption].
    rewrite Hfw. simpl negb.
    pose proof (save_keeps_headed results keyword (output s) Hh) as Hk.
    destruct (save_to_csv results keyword true (output s))
      as [[[n|] f] lines]; simpl in Hk; [|simpl; split; auto].
    destruct (has_next results) as [next|]; [|simpl; split; auto].
    destruct (negb next || (n =? 0)%nat); [simpl; split; auto|].
    apply IH; simpl; auto.
Qed.

Lemma first_save_heads (serp : nat -> string -> Z -> option dict)
      (page : nat) (rest : list nat) (keyword : string) (total : nat)
      (s : state) (results : dict) (products : json) :
  first_write s = true ->
  serp (requests s) keyword (offset page) = Some results ->
  lookup "products" results = Some products ->
  truthy products = true ->
  headed (output (snd (fetch_pages serp (page :: rest) keyword total s)))
  /\ (forall n,
         fst (fetch_pages serp (page :: rest) keyword total s) = Some n ->
         first_write (snd (fetch_pages serp (page :: rest) keyword total s))
         = false).
Proof.
  intros Hfw Hs Hp Ht.
  cbn [fetch_pages]. unfold search_home_depot. cbv zeta.
  cbn [requests trace output first_write].
  rewrite Hs, Hfw. simpl negb.
  destruct (save_with_products results keyword false (output s)
              products Hp Ht) as (rows & Hd & Hw & Hf & _).
  assert (Hh : headed (snd (fst (save_to_csv results keyword false
                                             (output s))))).
  { rewrite Hf, Hw. exists rows. split; [reflexivity | exact Hd]. }
  clear Hw Hf.
  destruct (save_to_csv results keyword false (output s))
    as [[[n|] f] lines]; simpl in Hh;
    [|simpl; split; [exact Hh | discriminate]].
  destruct (has_next results) as [next|];
    [|simpl; split; [exact Hh | discriminate]].
  destruct (negb next || (n =? 0)%nat); [simpl; split; auto|].
  match goal with
  | |- context [fetch_pages serp rest keyword ?t ?s0] =>
      destruct (fetch_pages_keeps_headed serp rest keyword t s0
                  eq_refl Hh) as [Hfw' Hh']
  end.
  split; auto.
Qed.

Lemma search_all_keeps_headed (serp : nat -> string -> Z -> option dict)
      (keywords : list string) (s : state) :
  first_write s = false -> headed (output s) ->
  headed (output (state_of (search_all serp keywords s))).
Proof.
  revert s. induction keywords as [|keyword rest IH]; intros s Hfw Hh.
  - exact Hh.
  - cbn [search_all].
    destruct (fetch_pages_keeps_headed serp (seq 1 max_pages) keyword 0 s
                Hfw Hh) as [Hfw' Hh'].
    destruct (fetch_pages serp (seq 1 max_pages) keyword 0 s) as [[n|] s1];
      simpl in *; [|exact Hh'].
    apply IH; simpl; assumption.
Qed.

(** *** After the first write every save appends *)

Lemma grown_refl (old : list line) : grown (Some old) (Some old).
Proof.
  exists old, []. rewrite app_nil_r. repeat split. constructor.
Qed.

Lemma grown_trans (f g h : file) : grown f g -> grown g h -> grown f h.
Proof.
  intros (old & a1 & -> & -> & H1) (old' & a2 & Hg & -> & H2).
  injection Hg as <-. exists old, (a1 ++ a2).
  rewrite app_assoc. repeat split. apply Forall_app. split; assumption.
Qed.

Lemma save_appends (results : dict) (keyword : string) (old : list line) :
  grown (Some old)
        (snd (fst (save_to_csv results keyword true (Some old)))).
Proof.
  destruct (lookup "products" results) as [products|] eqn:Hp.
  - destruct (truthy products) eqn:Ht.
    + destruct (save_with_products results keyword true (Some old)
                  products Hp Ht) as (rows & Hd & Hw & Hf & _).
      rewrite Hf, Hw. simpl. exists old, rows. repeat split. exact Hd.
    + unfold save_to_csv. rewrite Hp, Ht. apply grown_refl.
  - unfold save_to_csv. rewrite Hp. apply grown_refl.
Qed.

Lemma fetch_pages_appends (serp : nat -> string -> Z -> option dict)
      (pages : list nat) (keyword : string) (total : nat) (s : state)
      (old : list line) :
  first_write s = false -> output s = Some old ->
  first_write (snd (fetch_pages serp pages keyword total s)) = false
  /\ grown (Some old)
           (output (snd (fetch_pages serp pages keyword total s))).
Proof.
  revert total s old.
  induction pages as [|page rest IH]; intros total s old Hfw Ho.
  - simpl. rewrite Ho. split; [exact Hfw | apply grown_refl].
  - cbn [fetch_pages]. unfold search_home_depot. cbv zeta.
    cbn [requests trace output first_write].
    destruct (serp (requests s) keyword (offset page)) as [results|];
      [|simpl; rewrite Ho; split; [exact Hfw | apply grown_refl]].
    rewrite Hfw, Ho. simpl negb.
    pose proof (save_appends results keyword old) as Hg.
    destruct (save_to_csv results keyword true (Some old))
      as [[[n|] f] lines]; simpl in Hg; [|simpl; split; auto].
    destruct (has_next results) as [next|]; [|simpl; split; auto].
    destruct (negb next || (n =? 0)%nat); [simpl; split; auto|].
    destruct Hg as (old' & added & Ho' & -> & Ha). injection Ho' as <-.
    match goal with
    | |- context [fetch_pages serp rest keyword ?t ?s0] =>
        destruct (IH t s0 (old ++ added) eq_refl eq_refl) as [Hfw' Hg']
    end.
    split; [exact Hfw'|].
    apply (grown_trans _ (Some (old ++ added))); [|exact Hg'].
    exists old, added. repeat split. exact Ha.
Qed.

Lemma search_all_appends (serp : nat -> string -> Z -> option dict)
      (keywords : list string) (s : state) (old : list line) :
  first_write s = false -> output s = Some old ->
  grown (Some old) (output (state_of (search_all serp keywords s))).
Proof.
  revert s old. induction keywords as [|keyword rest IH]; intros s old Hfw Ho.
  - simpl. rewrite Ho. apply grown_refl.
  - cbn [search_all].
    destruct (fetch_pages_appends serp (seq 1 max_pages) keyword 0 s old
                Hfw Ho) as [Hfw' Hg].
    destruct (fetch_pages serp (seq 1 max_pages) keyword 0 s) as [[n|] s1];
      simpl in *; [|exact Hg].
    destruct Hg as (old' & added & Ho' & Hs1 & Ha). injection Ho' as <-.
    apply (grown_trans _ (Some (old ++ added))).
    + exists old, added. repeat split. exact Ha.
    + apply (IH (emit (Report keyword n) s1)); simpl; assumption.
Qed.

(** The first save of a run, when it has products: the file is what this
    save wrote, and what the rest of the run adds are data rows. *)
Lemma first_save_then_appends (serp : nat -> string -> Z -> option dict)
      (page : nat) (rest : list nat) (keyword : string) (total : nat)
      (s : state) (results : dict) (products : json) :
  first_write s = true ->
  serp (requests s) keyword (offset page) = Some results ->
  lookup "products" results = Some products ->
  truthy products = true ->
  grown (Some (snd (save_to_csv results keyword false (output s))))
        (output (snd (fetch_pages serp (page :: rest) keyword total s)))
  /\ (forall n,
         fst (fetch_pages serp (page :: rest) keyword total s) = Some n ->
         first_write (snd (fetch_pages serp (page :: rest) keyword total s))
         = false).
Proof.
  intros Hfw Hs Hp Ht.
  cbn [fetch_pages]. unfold search_home_depot. cbv zeta.
  cbn [requests trace output first_write].
  rewrite Hs, Hfw. simpl negb.
  destruct (save_with_products results keyword false (output s)
              products Hp Ht) as (rows & Hd & Hw & Hf & _).
  assert (Hfile : snd (fst (save_to_csv results keyword false (output s)))
                  = Some (snd (save_to_csv results keyword false
                                           (output s)))).
  { rewrite Hf. reflexivity. }
  clear Hw Hf.
  destruct (save_to_csv results keyword false (output s))
    as [[[n|] f] lines]; simpl in Hfile; subst f;
    [|simpl; split; [apply grown_refl | discriminate]].
  destruct (has_next results) as [next|];
    [|simpl; split; [apply grown_refl | discriminate]].
  destruct (negb next || (n =? 0)%nat);
    [simpl; split; [apply grown_refl | reflexivity]|].
  match goal with
  | |- context [fetch_pages serp rest keyword ?t ?s0] =>
      destruct (fetch_pages_appends serp rest keyword t s0 lines
                  eq_refl eq_refl) as [Hfw' Hg']
  end.
  split; auto.
Qed.

End Facts.

End SearchFacts.

(** C10. A save call whose results have no "products" key, or an empty
    products list, returns 0 and leaves the output file as it was: it is not
    opened, nothing is written, no header row either, whatever the flag. *)
Theorem save_without_products_leaves_the_file {codec : Csv.Codec}
        (results : Py.dict) (keyword : string) (append : bool)
        (f : Search.file) :
  Py.lookup "products" results = None
  \/ Py.lookup "products" results = Some (Py.JArr []) ->
  Search.save_to_csv results keyword append f = (Some 0, f, [])
  /\ Search.writes_header results keyword append f = false.
Proof.
  intros [H|H]; unfold Search.writes_header, Search.save_to_csv;
    rewrite H; split; reflexivity.
Qed.

Lemma save_without_products_witness :
  Search.save_to_csv (codec := Csv.plain)
                     [("products", Py.JArr [])] "hammer" false
                     (Some [Search.Header Search.fieldnames])
  = (Some 0, Some [Search.Header Search.fieldnames], [])
  /\ Search.save_to_csv (codec := Csv.plain) [] "hammer" false None
     = (Some 0, None, []).
Proof.
  split.
  - apply (save_without_products_leaves_the_file (codec := Csv.plain)
             [("products", Py.JArr [])] "hammer" false
             (Some [Search.Header Search.fieldnames])).
    right. reflexivity.
  - apply (save_without_products_leaves_the_file (codec := Csv.plain)
             [] "hammer" false None).
    left. reflexivity.
Defined.

(** C1, as stated, fails: with the same results and the same flag, a save
    call writes the header when the output file does not exist and does not
    write it when the file exists. *)
Lemma header_depends_on_file_existence :
  ~ (forall results keyword append f1 f2,
        Search.writes_header (codec := Csv.plain) results keyword append f1
        = Search.writes_header (codec := Csv.plain)
                               results keyword append f2).
Proof.
  intro H.
  specialize (H [("products", Py.JArr [Py.JObj []])] "hammer" true
                None (Some [])).
  vm_compute in H. discriminate.
Qed.

(** C1, amended. A save call that has product rows to write overwrites
    the file when the first-write flag is set and appends otherwise, and it
    writes the header row when the flag is set or when the output file does
    not exist yet.  When the first save of a run has product rows, the file
    is overwritten there: it becomes the header and the rows of that page,
    whatever it held before.  Every later save of the run appends: from a
    state whose flag is cleared, whatever the run does afterwards only adds
    data rows at the end of the file, so that the final file is what the
    first save wrote followed by data rows. *)
Theorem header_written_on_first_write_or_new_file {codec : Csv.Codec} :
  (forall results keyword append f products,
      Py.lookup "products" results = Some products ->
      Py.truthy products = true ->
      Search.writes_header results keyword append f
      = negb append || match f with Some _ => false | None => true end
      /\ exists rows,
          Forall Search.is_data rows
          /\ snd (fst (Search.save_to_csv results keyword append f))
             = Some (Search.open_file append f
                       ++ (if Search.writes_header results keyword append f
                           then [Search.Header Search.fieldnames] else [])
                       ++ rows)
          /\ (forall n,
                 fst (fst (Search.save_to_csv results keyword append f))
                 = Some n ->
                 List.length rows = n))
  /\ (forall serp keywords_file before keyword rest results products,
         Reader.read_keywords keywords_file = keyword :: rest ->
         serp 0 keyword 0%Z = Some results ->
         Py.lookup "products" results = Some products ->
         Py.truthy products = true ->
         let first := snd (Search.save_to_csv results keyword false before) in
         let final :=
           Search.output
             (Search.state_of (Search.main serp keywords_file before)) in
         first = snd (Search.save_to_csv results keyword false None)
         /\ Search.headed (Some first)
         /\ Search.grown (Some first) final
         /\ Search.headed final)
  /\ (forall serp keywords s old,
         Search.first_write s = false ->
         Search.output s = Some old ->
         Search.grown
           (Some old)
           (Search.output
              (Search.state_of (Search.search_all serp keywords s)))).
Proof.
  split; [|split].
  - intros results keyword append f products Hp Ht.
    destruct (SearchFacts.save_with_products results keyword append f
                products Hp Ht) as (rows & Hd & Hw & Hf & Hn).
    assert (Hhdr : Search.writes_header results keyword append f
                   = negb append
                     || match f with Some _ => false | None => true end).
    { unfold Search.writes_header. rewrite Hw.
      rewrite existsb_app.
      assert (Hr : existsb Search.is_header rows = false).
      { clear -Hd. induction Hd as [|l rows Hl _ IH]; [reflexivity|].
        destruct l; [destruct Hl | exact IH]. }
      rewrite Hr, orb_false_r.
      destruct (negb append
                || match f with Some _ => false | None => true end);
        reflexivity. }
    split; [exact Hhdr|].
    exists rows. split; [exact Hd|]. split; [|exact Hn].
    rewrite Hf, Hw, Hhdr. reflexivity.
  - intros serp keywords_file before keyword rest results products
           Hk Hs Hp Ht first final.
    assert (Hsame : first
                    = snd (Search.save_to_csv results keyword false None)).
    { unfold first, Search.save_to_csv. rewrite Hp, Ht.
      destruct before; reflexivity. }
    assert (Hfirst : Search.headed (Some first)).
    { destruct (SearchFacts.save_with_products results keyword false before
                  products Hp Ht) as (rows & Hd & Hw & _).
      exists rows. split; [|exact Hd]. unfold first. rewrite Hw.
      reflexivity. }
    assert (Hgrown : Search.grown (Some first) final).
    { unfold final, Search.main. rewrite Hk. cbn [Search.search_all].
      unfold Search.max_pages. cbn [seq].
      destruct (SearchFacts.first_save_then_appends serp 1 [2; 3] keyword 0
                  (Search.mkState 0 [] before true) results products
                  eq_refl Hs Hp Ht) as [Hg Hfw].
      cbn [Search.output] in Hg. fold first in Hg.
      destruct (Search.fetch_pages serp [1; 2; 3] keyword 0
                  (Search.mkState 0 [] before true)) as [[n|] s1];
        simpl in *; [|exact Hg].
      destruct Hg as (old & added & Ho & Hs1 & Ha). injection Ho as <-.
      apply (SearchFacts.grown_trans _ (Some (first ++ added))).
      - exists first, added. repeat split. exact Ha.
      - apply (SearchFacts.search_all_appends serp rest
                 (Search.emit (Search.Report keyword n) s1));
          simpl; [apply (Hfw n); reflexivity | exact Hs1]. }
    repeat split; try assumption.
    destruct Hfirst as (rows & Hr & Hd).
    destruct Hgrown as (old & added & Ho & Hf & Ha).
    injection Ho as <-. injection Hr as Hr.
    exists (rows ++ added). split.
    + rewrite Hf, Hr. reflexivity.
    + apply Forall_app. split; assumption.
  - intros serp keywords s old Hfw Ho.
    apply SearchFacts.search_all_appends; assumption.
Qed.

Lemma header_written_witness :
  let serp := fun (n : nat) (_ : string) (_ : Z) =>
                Some [("products",
                       Py.JArr [Py.JObj [("title",
                                          Py.JNum (Py.Int (Z.of_nat n)))]])] in
  let keywords_file := ("hammer" ++ String PyStr.LF "drill")%string in
  let before := Some [Search.Data []; Search.Header []] in
  let row := fun keyword n =>
               Search.Data
                 [Py.JStr keyword; Py.JNum (Py.Int n);
                  Py.JStr ""; Py.JStr ""; Py.JStr ""; Py.JStr ""; Py.JStr "";
                  Py.JStr ""; Py.JStr ""; Py.JBool false; Py.JStr "";
                  Py.JNum (Py.Int 0)] in
  Search.grown
    (Some [Search.Header Search.fieldnames; row "hammer" 0%Z])
    (Search.output
       (Search.state_of
          (Search.main (codec := Csv.plain) serp keywords_file before)))
  /\ Search.output
       (Search.state_of
          (Search.main (codec := Csv.plain) serp keywords_file before))
     = Some [Search.Header Search.fieldnames;
             row "hammer" 0%Z; row "drill" 1%Z].
Proof.
  intros serp keywords_file before row. split; [|reflexivity].
  apply (proj1 (proj2 (header_written_on_first_write_or_new_file
                         (codec := Csv.plain)))
               serp keywords_file before "hammer" ["drill"]
               [("products",
                 Py.JArr [Py.JObj [("title", Py.JNum (Py.Int 0))]])]
               (Py.JArr [Py.JObj [("title", Py.JNum (Py.Int 0))]])
               eq_refl eq_refl eq_refl eq_refl).
Defined.

(** C4. For every keyword the pages are fetched in increasing order from
    page 1, never beyond page 3, and no further page is fetched once a page
    yields zero product rows or its response lacks the next-page
    indicator. *)
Theorem pagination_stops_by_page_three {codec : Csv.Codec}
        (serp : nat -> string -> Z -> option Py.dict)
        (keyword : string) (total : nat) (s : Search.state) :
  let run :=
    Search.fetch_pages serp (seq 1 Search.max_pages) keyword total s in
  (exists n new,
      (1 <= n <= 3)%nat
      /\ Search.trace (snd run) = Search.trace s ++ new
      /\ Search.fetched_pages new = seq 1 n
      /\ Search.requests (snd run) = Search.requests s + n
      /\ forall page results,
          (1 <= page <= n)%nat ->
          serp (Search.requests s + (page - 1)) keyword (Search.offset page)
          = Some results ->
          Search.products_count results keyword = Some 0
          \/ Search.has_next results = Some false ->
          page = n)
  /\ (forall results,
         Py.lookup "serpapi_pagination" results = None
         \/ (exists pagination,
                Py.lookup "serpapi_pagination" results
                = Some (Py.JObj pagination)
                /\ Py.lookup "next" pagination = None) ->
         Search.has_next results = Some false)
  /\ (forall results,
         Py.lookup "products" results = None
         \/ Py.lookup "products" results = Some (Py.JArr []) ->
         Search.products_count results keyword = Some 0).
Proof.
  intro run. split; [|split].
  - destruct (SearchFacts.fetch_pages_events serp (seq 1 Search.max_pages)
                keyword total s) as [Ht Hr].
    fold run in Ht, Hr.
    unfold Search.max_pages in Ht, Hr. cbn [seq Search.page_events] in Ht, Hr.
    assert (Hstop : forall n results,
               serp n keyword (Search.offset (S (n - Search.requests s)))
               = Some results ->
               Search.products_count results keyword = Some 0
               \/ Search.has_next results = Some false ->
               Search.page_continues
                 (serp n keyword (Search.offset (S (n - Search.requests s))))
                 keyword = false).
    { intros n results Hs [Hc|Hn]; unfold Search.page_continues;
        rewrite Hs.
      - rewrite Hc. reflexivity.
      - rewrite Hn. destruct (Search.products_count results keyword)
          as [[|c]|]; reflexivity. }
    pose proof (Hstop (Search.requests s)) as H1.
    pose proof (Hstop (S (Search.requests s))) as H2.
    pose proof (Hstop (S (S (Search.requests s)))) as H3.
    replace (Search.requests s - Search.requests s) with 0 in H1 by lia.
    replace (S (Search.requests s) - Search.requests s) with 1 in H2 by lia.
    replace (S (S (Search.requests s)) - Search.requests s) with 2 in H3
      by lia.
    clear Hstop.
    assert (Hpage : forall page results (P : Prop),
               (page = 1 -> serp (Search.requests s) keyword (Search.offset 1)
                            = Some results -> P) ->
               (page = 2 -> serp (S (Search.requests s)) keyword
                                 (Search.offset 2) = Some results -> P) ->
               (page = 3 -> serp (S (S (Search.requests s))) keyword
                                 (Search.offset 3) = Some results -> P) ->
               (1 <= page <= 3)%nat ->
               serp (Search.requests s + (page - 1)) keyword
                    (Search.offset page) = Some results -> P).
    { intros page results P P1 P2 P3 Hrange Hs.
      destruct page as [|[|[|[|page]]]]; try lia.
      - apply P1; [reflexivity|].
        rewrite <- Hs. f_equal. simpl. lia.
      - apply P2; [reflexivity|].
        rewrite <- Hs. f_equal. simpl. lia.
      - apply P3; [reflexivity|].
        rewrite <- Hs. f_equal. simpl. lia. }
    set (c1 := Search.page_continues
                 (serp (Search.requests s) keyword (Search.offset 1))
                 keyword) in *.
    set (c2 := Search.page_continues
                 (serp (S (Search.requests s)) keyword (Search.offset 2))
                 keyword) in *.
    set (c3 := Search.page_continues
                 (serp (S (S (Search.requests s))) keyword (Search.offset 3))
                 keyword) in *.
    destruct c1; [destruct c2|].
    + eexists 3, _. split; [lia|]. split; [exact Ht|].
      split; [destruct c3; reflexivity|].
      split; [rewrite Hr; destruct c3; simpl; lia|].
      intros page results Hrange Hs Hcond.
      revert Hs. apply Hpage; try lia; intros -> Hs.
      * discriminate (H1 results Hs Hcond).
      * discriminate (H2 results Hs Hcond).
    + eexists 2, _. split; [lia|]. split; [exact Ht|].
      split; [reflexivity|]. split; [rewrite Hr; simpl; lia|].
      intros page results Hrange Hs Hcond.
      revert Hs. apply Hpage; try lia; intros -> Hs.
      discriminate (H1 results Hs Hcond).
    + eexists 1, _. split; [lia|]. split; [exact Ht|].
      split; [reflexivity|]. split; [rewrite Hr; simpl; lia|].
      intros page results Hrange Hs Hcond. lia.
  - intros results [H|(pagination & H & Hn)]; unfold Search.has_next;
      rewrite H; [reflexivity|].
    simpl. unfold Py.has_key. rewrite Hn. reflexivity.
  - intros results [H|H]; unfold Search.products_count, Search.save_to_csv;
      rewrite H; reflexivity.
Qed.

Lemma pagination_witness :
  exists n new,
    (1 <= n <= 3)%nat
    /\ Search.trace
         (snd (Search.fetch_pages (codec := Csv.plain)
                 (fun _ _ _ => Some [("products", Py.JArr [Py.JObj []])])
                 (seq 1 Search.max_pages) "hammer" 0
                 (Search.mkState 0 [] None true)))
       = [] ++ new
    /\ Search.fetched_pages new = seq 1 n
    /\ n = 1.
Proof.
  destruct (proj1 (pagination_stops_by_page_three (codec := Csv.plain)
                     (fun _ _ _ => Some [("products", Py.JArr [Py.JObj []])])
                     "hammer" 0 (Search.mkState 0 [] None true)))
    as (n & new & Hn & Ht & Hp & _ & Hstop).
  exists n, new. repeat split; try assumption; try lia.
  symmetry.
  apply (Hstop 1 [("products", Py.JArr [Py.JObj []])]);
    [lia | reflexivity | right; reflexivity].
Defined.

(** C6, as stated, fails: in the search pipeline the request that ends a
    keyword's pagination is followed by no delay. *)
Lemma search_last_request_has_no_delay :
  Search.delayed 1 false
    (Search.trace
       (Search.state_of
          (Search.main (codec := Csv.plain)
             (fun _ _ _ => Some [("products", Py.JArr [Py.JObj []])])
             "hammer" None)))
  = false.
Proof. vm_compute. reflexivity. Qed.

(** C6, amended. In the detail pipeline a delay of 1 follows every
    request whose key is then handled to the end of its iteration, whether
    the request succeeded or failed, the last key included; the only request
    followed by no delay is that of a key whose row the writer refuses, where
    the run ends.  In the search pipeline a delay of 1 follows every page
    request after which the pagination loop goes on (the page was saved with
    at least one row and carried a next-page indicator), page 3 included;
    the request at which the loop is left is the last event of the
    keyword. *)
Theorem delay_follows_requests {codec : Csv.Codec} :
  (Detail.REQUEST_DELAY = 1
   /\ forall http limit api_key input_file asin_list result,
       Detail.main http limit api_key input_file
       = Detail.Ran asin_list result ->
       match result with
       | Detail.Completed s =>
           Detail.delayed Detail.REQUEST_DELAY false (Detail.trace s) = true
       | Detail.Aborted s =>
           exists t url,
             Detail.trace s = t ++ [Detail.Request url]
             /\ Detail.delayed Detail.REQUEST_DELAY false t = true
       end)
  /\ (forall serp keyword total s,
         let goes_on page :=
           Search.page_continues
             (serp (Search.requests s + (page - 1)) keyword
                   (Search.offset page)) keyword in
         Search.trace
           (snd (Search.fetch_pages serp (seq 1 Search.max_pages)
                                    keyword total s))
         = Search.trace s
             ++ Search.Fetch keyword 1 0
             :: if goes_on 1
                then Search.Sleep 1
                       :: Search.Fetch keyword 2 24
                       :: if goes_on 2
                          then Search.Sleep 1
                                 :: Search.Fetch keyword 3 48
                                 :: if goes_on 3 then [Search.Sleep 1] else []
                          else []
                else []).
Proof.
  split.
  - split; [reflexivity|].
    intros http limit api_key input_file asin_list result Hmain.
    unfold Detail.main in Hmain.
    destruct api_key as [[|c key]|]; try discriminate.
    destruct input_file as [raw|]; try discriminate.
    injection Hmain as <- <-.
    destruct (DetailFacts.process_run http
                (Detail.apply_limit limit (Reader.read_asin_list raw))
                (String c key) 0 Detail.initial) as [_ Hrun].
    destruct (Detail.process http 0 _ (String c key) Detail.initial)
      as [s|s].
    + destruct Hrun as (_ & _ & Hd & _). apply Hd. reflexivity.
    + destruct Hrun as (done & asin & rest & _ & _ & _ & Hd & _).
      destruct (Hd eq_refl) as (t & Ht & Hdel).
      exists t, (Detail.request_url asin (String c key)).
      split; assumption.
  - intros serp keyword total s goes_on.
    destruct (SearchFacts.fetch_pages_events serp (seq 1 Search.max_pages)
                keyword total s) as [Ht _].
    rewrite Ht. f_equal. unfold goes_on. simpl.
    rewrite Nat.add_0_r, Nat.add_1_r.
    replace (Search.requests s + 2) with (S (S (Search.requests s))) by lia.
    reflexivity.
Qed.

Lemma delay_follows_requests_witness :
  Detail.delayed Detail.REQUEST_DELAY false
    (Detail.trace
       (Detail.state_of
          (Detail.process (codec := Csv.plain) (fun _ _ => None) 0
                          ["B01"; "B02"] "k" Detail.initial)))
  = true.
Proof.
  apply (proj2 (proj1 (delay_follows_requests (codec := Csv.plain)))
               (fun _ _ => None) 0%Z (Some "k") (Some "B01 B02")
               ["B01"; "B02"]
               (Detail.Completed _)).
  reflexivity.
Defined.

(** * More properties of the two pipelines *)

(** ** The retry loop of the detail pipeline *)

Module RetryFacts.
Import PyStr Py Detail DetailObs.

Lemma sleeps_app (t u : list event) : sleeps (t ++ u) = sleeps t ++ sleeps u.
Proof. unfold sleeps. apply flat_map_app. Qed.

Lemma attempt_fails (http : nat -> string -> option json)
      (max_retries attempt : nat) (rest : list nat)
      (asin api_key : string) (s : state) :
  fails http api_key (requests s) asin = true ->
  exists s1 new,
    fetch_attempts http max_retries (attempt :: rest) asin api_key s
    = fetch_attempts http max_retries rest asin api_key s1
    /\ requests s1 = S (requests s)
    /\ trace s1 = trace s ++ new
    /\ requested_urls new = [request_url asin api_key]
    /\ sleeps new = pause max_retries attempt.
Proof.
  unfold fails, pause. intro H. cbn [fetch_attempts]. cbv zeta.
  destruct (handle_response asin _) as [row|message|]; [discriminate| |].
  - destruct (attempt <? max_retries - 1)%nat;
      eexists; eexists; (split; [reflexivity|]); (split; [reflexivity|]);
      unfold emit, count_request; cbn [trace requests];
      rewrite <- !app_assoc; (split; [reflexivity|]); split; reflexivity.
  - destruct (attempt <? max_retries - 1)%nat;
      eexists; eexists; (split; [reflexivity|]); (split; [reflexivity|]);
      unfold emit, count_request; cbn [trace requests];
      rewrite <- !app_assoc; (split; [reflexivity|]); split; reflexivity.
Qed.

Lemma attempts_all_fail (http : nat -> string -> option json)
      (max_retries : nat) (asin api_key : string) (m a : nat) (s : state) :
  (forall k, (k < m)%nat ->
             fails http api_key (requests s + k) asin = true) ->
  exists s' new,
    fetch_attempts http max_retries (seq a m) asin api_key s = (None, s')
    /\ trace s' = trace s ++ new
    /\ requests s' = requests s + m
    /\ requested_urls new = repeat (request_url asin api_key) m
    /\ sleeps new = flat_map (pause max_retries) (seq a m).
Proof.
  revert a s. induction m as [|m IH]; intros a s Hall.
  - exists s, []. simpl. rewrite app_nil_r. repeat split; lia.
  - cbn [seq].
    destruct (attempt_fails http max_retries a (seq (S a) m) asin api_key s)
      as (s1 & new1 & Hstep & Hr1 & Ht1 & Hu1 & Hs1).
    { rewrite <- (Nat.add_0_r (requests s)). apply Hall. lia. }
    destruct (IH (S a) s1) as (s' & new & Hrun & Ht & Hr & Hu & Hs).
    { intros k Hk. rewrite Hr1.
      replace (S (requests s) + k) with (requests s + S k) by lia.
      apply Hall. lia. }
    exists s', (new1 ++ new). rewrite Hstep, Hrun.
    split; [reflexivity|].
    split; [rewrite Ht, Ht1, app_assoc; reflexivity|].
    split; [lia|].
    split.
    + rewrite DetailFacts.requested_urls_app, Hu1, Hu. reflexivity.
    + rewrite sleeps_app, Hs1, Hs. reflexivity.
Qed.

Lemma attempts_first_success (http : nat -> string -> option json)
      (max_retries : nat) (asin api_key : string) (csv_row : dict)
      (k m a : nat) (s : state) :
  (k < m)%nat ->
  (forall j, (j < k)%nat ->
             fails http api_key (requests s + j) asin = true) ->
  handle_response asin (http (requests s + k) (request_url asin api_key))
  = Row csv_row ->
  exists s' new,
    fetch_attempts http max_retries (seq a m) asin api_key s
    = (Some csv_row, s')
    /\ trace s' = trace s ++ new
    /\ requests s' = requests s + S k
    /\ requested_urls new = repeat (request_url asin api_key) (S k)
    /\ sleeps new = flat_map (pause max_retries) (seq a k).
Proof.
  revert m a s. induction k as [|k IH]; intros m a s Hk Hall Hrow.
  - destruct m as [|m]; [lia|]. cbn [seq fetch_attempts]. cbv zeta.
    rewrite Nat.add_0_r in Hrow. rewrite Hrow.
    eexists. exists [Request (request_url asin api_key)].
    split; [reflexivity|]. unfold emit, count_request. cbn [trace requests].
    repeat split. lia.
  - destruct m as [|m]; [lia|]. cbn [seq].
    destruct (attempt_fails http max_retries a (seq (S a) m) asin api_key s)
      as (s1 & new1 & Hstep & Hr1 & Ht1 & Hu1 & Hs1).
    { rewrite <- (Nat.add_0_r (requests s)). apply Hall. lia. }
    destruct (IH m (S a) s1) as (s' & new & Hrun & Ht & Hr & Hu & Hs).
    { lia. }
    { intros j Hj. rewrite Hr1.
      replace (S (requests s) + j) with (requests s + S j) by lia.
      apply Hall. lia. }
    { rewrite Hr1.
      replace (S (requests s) + k) with (requests s + S k) by lia.
      exact Hrow. }
    exists s', (new1 ++ new). rewrite Hstep, Hrun.
    split; [reflexivity|].
    split; [rewrite Ht, Ht1, app_assoc; reflexivity|].
    split; [lia|].
    split.
    + rewrite DetailFacts.requested_urls_app, Hu1, Hu. reflexivity.
    + rewrite sleeps_app, Hs1, Hs. reflexivity.
Qed.

(** Between attempts the loop always pauses; after the last it does not. *)
Lemma pauses_between (max_retries k : nat) :
  (k <= max_retries - 1)%nat ->
  flat_map (pause max_retries) (seq 0 k)
  = map (fun attempt => REQUEST_DELAY * (attempt + 1)) (seq 0 k).
Proof.
  intro Hk.
  assert (H : forall l, (forall x, In x l -> (x < max_retries - 1)%nat) ->
              flat_map (pause max_retries) l
              = map (fun attempt => REQUEST_DELAY * (attempt + 1)) l).
  { induction l as [|x l IH]; intro Hl; [reflexivity|].
    cbn [flat_map map]. unfold pause at 1.
    assert (Hx : (x <? max_retries - 1)%nat = true)
      by (apply Nat.ltb_lt, Hl; left; reflexivity).
    rewrite Hx, IH; [reflexivity|].
    intros y Hy. apply Hl. right. exact Hy. }
  apply H. intros x Hx. apply in_seq in Hx. lia.
Qed.

Lemma pauses_all (max_retries : nat) :
  flat_map (pause max_retries) (seq 0 max_retries)
  = map (fun attempt => REQUEST_DELAY * (attempt + 1))
        (seq 0 (max_retries - 1)).
Proof.
  destruct max_retries as [|n]; [reflexivity|].
  replace (S n - 1) with n by lia.
  rewrite seq_S, flat_map_app. cbn [flat_map Nat.add].
  unfold pause at 2. replace (S n - 1) with n by lia.
  rewrite Nat.ltb_irrefl, !app_nil_r.
  rewrite <- (pauses_between (S n) n) by lia. reflexivity.
Qed.

End RetryFacts.

(** X1. When every attempt for a key fails (an error body, an exception),
    fetch_product_data with max_retries = n gives up with no data after
    exactly n requests to the same URL, pausing REQUEST_DELAY * attempt
    between attempts (1, 2, ..., n-1 times the delay) and not after the
    last; with n = 0 it sends nothing. *)
Theorem retries_exhausted
        (http : nat -> string -> option Py.json)
        (max_retries : nat) (asin api_key : string) (s : Detail.state) :
  (forall k, (k < max_retries)%nat ->
             DetailObs.fails http api_key (Detail.requests s + k) asin
             = true) ->
  exists s' new,
    DetailObs.fetch_with http max_retries asin api_key s = (None, s')
    /\ Detail.trace s' = Detail.trace s ++ new
    /\ Detail.requests s' = Detail.requests s + max_retries
    /\ Detail.requested_urls new
       = repeat (Detail.request_url asin api_key) max_retries
    /\ DetailObs.sleeps new
       = map (fun attempt => Detail.REQUEST_DELAY * (attempt + 1))
             (seq 0 (max_retries - 1)).
Proof.
  intro Hall.
  destruct (RetryFacts.attempts_all_fail http max_retries asin api_key
              max_retries 0 s Hall) as (s' & new & H1 & H2 & H3 & H4 & H5).
  exists s', new. unfold DetailObs.fetch_with.
  rewrite H5, RetryFacts.pauses_all. auto.
Qed.

Lemma retries_exhausted_witness :
  exists s' new,
    DetailObs.fetch_with (fun _ _ => None) 3 "B01" "k" Detail.initial
    = (None, s')
    /\ Detail.requests s' = 3
    /\ DetailObs.sleeps new = [1; 2].
Proof.
  destruct (retries_exhausted (fun _ _ => None) 3 "B01" "k" Detail.initial
              (fun _ _ => eq_refl))
    as (s' & new & H1 & _ & H3 & _ & H5).
  exists s', new. repeat split; assumption.
Defined.

(** X2. The retry loop stops at the first attempt that yields a row: when
    the first k attempts fail and attempt k+1 (within max_retries) succeeds,
    fetch_product_data returns that row after exactly k+1 requests, having
    paused REQUEST_DELAY * attempt after each of the k failures. *)
Theorem retries_stop_at_first_success
        (http : nat -> string -> option Py.json)
        (max_retries k : nat) (asin api_key : string) (s : Detail.state)
        (csv_row : Py.dict) :
  (k < max_retries)%nat ->
  (forall j, (j < k)%nat ->
             DetailObs.fails http api_key (Detail.requests s + j) asin
             = true) ->
  Detail.handle_response asin
    (http (Detail.requests s + k) (Detail.request_url asin api_key))
  = Detail.Row csv_row ->
  exists s' new,
    DetailObs.fetch_with http max_retries asin api_key s
    = (Some csv_row, s')
    /\ Detail.trace s' = Detail.trace s ++ new
    /\ Detail.requests s' = Detail.requests s + S k
    /\ Detail.requested_urls new
       = repeat (Detail.request_url asin api_key) (S k)
    /\ DetailObs.sleeps new
       = map (fun attempt => Detail.REQUEST_DELAY * (attempt + 1)) (seq 0 k).
Proof.
  intros Hk Hall Hrow.
  destruct (RetryFacts.attempts_first_success http max_retries asin api_key
              csv_row k max_retries 0 s Hk Hall Hrow)
    as (s' & new & H1 & H2 & H3 & H4 & H5).
  exists s', new. unfold DetailObs.fetch_with.
  rewrite H5, RetryFacts.pauses_between by lia. auto.
Qed.

Lemma retries_stop_witness :
  exists s' new row,
    DetailObs.fetch_with
      (fun n _ => if (n =? 2)%nat
                  then Some (Py.JObj [("detail", Py.JObj [])]) else None)
      5 "B01" "k" Detail.initial
    = (Some row, s')
    /\ Detail.requests s' = 3
    /\ DetailObs.sleeps new = [1; 2].
Proof.
  destruct (retries_stop_at_first_success
              (fun n _ => if (n =? 2)%nat
                          then Some (Py.JObj [("detail", Py.JObj [])])
                          else None)
              5 2 "B01" "k" Detail.initial _
              ltac:(lia)
              ltac:(intros [|[|j]] Hj; [reflexivity | reflexivity | lia])
              eq_refl)
    as (s' & new & H1 & _ & H3 & _ & H5).
  exists s', new. eexists. repeat split; eassumption.
Defined.

(** ** The row normalizer and the main loop of the detail pipeline *)

Module NormalizerFacts.
Import PyStr Py PyShape Csv Detail DetailObs.

Section Facts.

Context {codec : Codec}.

Lemma length_append (a b : string) :
  String.length (a ++ b) = String.length a + String.length b.
Proof. induction a as [|c a IH]; simpl; congruence. Qed.

Lemma all_strs_none (l : list json) :
  existsb not_str l = true -> all_strs l = None.
Proof.
  induction l as [|x l IH]; simpl; [discriminate|].
  destruct x; simpl; try reflexivity.
  intro H. rewrite (IH H). reflexivity.
Qed.

(** A row is produced exactly from a dict body with a dict payload that
    the normalizer accepts. *)
Lemma fails_unless_row (http : nat -> string -> option json)
      (asin api_key : string) (s : state) :
  fails http api_key (requests s) asin = true ->
  exists s1 log,
    handle_asin http asin api_key s = Completed s1
    /\ csvfile s1 = csvfile s
    /\ success_count s1 = success_count s
    /\ remaining_credits s1 = remaining_credits s
    /\ failed_asins s1 = failed_asins s ++ [asin]
    /\ trace s1 = trace s ++ [Request (request_url asin api_key); log]
    /\ (handle_response asin
          (http (requests s) (request_url asin api_key)) = Raised ->
        log = LogException 1 MAX_RETRIES).
Proof.
  unfold fails. intro H.
  pose proof (DetailFacts.handle_asin_cases http asin api_key s) as Hh.
  cbv zeta in Hh.
  destruct (handle_response asin _) as [row|message|]; [discriminate| |];
    eexists; eexists; (split; [exact Hh|]); simpl;
    rewrite <- app_assoc; repeat split; discriminate.
Qed.

End Facts.

End NormalizerFacts.

(** X3. A request that raises, a body that is not a JSON object, or a
    'detail' payload that is not an object is handled like any failure of
    the key: the exception is logged, nothing is written, the key joins the
    failed keys and the loop goes on. *)
Theorem exception_fails_the_key {codec : Csv.Codec}
        (http : nat -> string -> option Py.json)
        (asin api_key : string) (s : Detail.state) :
  let response :=
    http (Detail.requests s) (Detail.request_url asin api_key) in
  response = None
  \/ (exists body, response = Some body /\ PyShape.is_dict body = false)
  \/ (exists data payload,
         response = Some (Py.JObj data)
         /\ Py.lookup "detail" data = Some payload
         /\ PyShape.is_dict payload = false) ->
  exists s1,
    Detail.handle_asin http asin api_key s = Detail.Completed s1
    /\ Detail.csvfile s1 = Detail.csvfile s
    /\ Detail.failed_asins s1 = Detail.failed_asins s ++ [asin]
    /\ Detail.trace s1
       = Detail.trace s
           ++ [ Detail.Request (Detail.request_url asin api_key);
                Detail.LogException 1 Detail.MAX_RETRIES ]
    /\ forall i rest,
        Detail.process http i (asin :: rest) api_key s
        = Detail.process http (S i) rest api_key (Detail.after_asin i s1).
Proof.
  intros response H.
  assert (Hr : Detail.handle_response asin response = Detail.Raised).
  { destruct H as [->|[(body & -> & Hb)|(data & payload & -> & Hd & Hp)]].
    - reflexivity.
    - destruct body; try reflexivity; discriminate.
    - simpl. rewrite Hd. destruct payload; try reflexivity; discriminate. }
  destruct (NormalizerFacts.fails_unless_row http asin api_key s)
    as (s1 & log & Hh & Hc & _ & _ & Hf & Ht & Hl).
  { unfold DetailObs.fails. fold response. rewrite Hr. reflexivity. }
  exists s1. split; [exact Hh|]. split; [exact Hc|]. split; [exact Hf|].
  split.
  - rewrite Ht, (Hl Hr). reflexivity.
  - intros i rest. simpl. rewrite Hh. reflexivity.
Qed.

Lemma exception_fails_witness :
  exists s1,
    Detail.handle_asin (codec := Csv.plain)
                       (fun _ _ => Some (Py.JArr [])) "B01" "k"
                       Detail.initial = Detail.Completed s1
    /\ Detail.csvfile s1 = Detail.csvfile Detail.initial
    /\ Detail.failed_asins s1 = ["B01"].
Proof.
  destruct (exception_fails_the_key (codec := Csv.plain)
              (fun _ _ => Some (Py.JArr [])) "B01" "k"
              Detail.initial
              (or_intror (or_introl (ex_intro _ (Py.JArr [])
                                       (conj eq_refl eq_refl)))))
    as (s1 & H1 & H2 & H3 & _).
  exists s1. repeat split; assumption.
Defined.

(** X4. A success payload whose features list holds an item that is not a
    string gives no row: the TypeError of the join is caught like any other
    exception, so the key is recorded as failed although the API answered
    with a 'detail' payload. *)
Theorem non_string_feature_fails_the_key {codec : Csv.Codec}
        (http : nat -> string -> option Py.json)
        (asin api_key : string) (s : Detail.state)
        (data product : Py.dict) (features : list Py.json) :
  http (Detail.requests s) (Detail.request_url asin api_key)
  = Some (Py.JObj data) ->
  Py.lookup "detail" data = Some (Py.JObj product) ->
  Py.lookup "features" product = Some (Py.JArr features) ->
  existsb PyShape.not_str features = true ->
  Detail.make_row asin product = None
  /\ exists s1,
      Detail.handle_asin http asin api_key s = Detail.Completed s1
      /\ Detail.csvfile s1 = Detail.csvfile s
      /\ Detail.failed_asins s1 = Detail.failed_asins s ++ [asin].
Proof.
  intros Hresp Hdetail Hfeat Hbad.
  assert (Hrow : Detail.make_row asin product = None).
  { assert (Hj : Py.py_join "; " (Py.get product "features" (Py.JArr []))
                 = None).
    { unfold Py.get. rewrite Hfeat. unfold Py.py_join. simpl.
      rewrite (NormalizerFacts.all_strs_none _ Hbad). reflexivity. }
    unfold Detail.make_row, Detail.bind.
    destruct (Py.py_iter _); [|reflexivity].
    destruct (Detail.names_of _); [|reflexivity].
    destruct (Py.py_join "; " (Py.JArr _)); [|reflexivity].
    rewrite Hj. reflexivity. }
  split; [exact Hrow|].
  destruct (NormalizerFacts.fails_unless_row http asin api_key s)
    as (s1 & log & Hh & Hc & _ & _ & Hf & _).
  { unfold DetailObs.fails, Detail.handle_response.
    rewrite Hresp, Hdetail, Hrow. reflexivity. }
  exists s1. auto.
Qed.

Lemma non_string_feature_witness :
  Detail.make_row "B01"
    [("features", Py.JArr [Py.JStr "fast"; Py.JNum (Py.Int 3)])] = None.
Proof.
  apply (proj1 (non_string_feature_fails_the_key (codec := Csv.plain)
                  (fun _ _ =>
                     Some (Py.JObj
                             [("detail",
                               Py.JObj [("features",
                                         Py.JArr [Py.JStr "fast";
                                                  Py.JNum (Py.Int 3)])])]))
                  "B01" "k" Detail.initial
                  [("detail",
                    Py.JObj [("features",
                              Py.JArr [Py.JStr "fast"; Py.JNum (Py.Int 3)])])]
                  [("features", Py.JArr [Py.JStr "fast"; Py.JNum (Py.Int 3)])]
                  [Py.JStr "fast"; Py.JNum (Py.Int 3)]
                  eq_refl eq_refl eq_refl eq_refl)).
Defined.

(** X5. The lookup of a named specification takes the value of the first
    table item with that name: the items before it have to be dicts, the
    items after it are never looked at (a malformed later item does not
    raise), and an item without a value gives the empty string; a table of
    dicts without the name gives the empty string. *)
Theorem first_named_detail_wins
        (wanted : string) (before after : list Py.json) (item : Py.dict) :
  Forall (DetailObs.other_detail wanted) before ->
  (Py.eq_str (Py.get item "name" Py.JNull) wanted = true ->
   Detail.first_detail wanted (before ++ Py.JObj item :: after)
   = Some (Py.get item "value" (Py.JStr "")))
  /\ Detail.first_detail wanted before = Some (Py.JStr "").
Proof.
  induction 1 as [|x before (d & -> & Hx) Hb [IH1 IH2]]; simpl.
  - split; [|reflexivity]. intros ->. reflexivity.
  - rewrite Hx. split; assumption.
Qed.

Lemma first_named_detail_witness :
  Detail.first_detail "Item Weight"
    ([Py.JObj [("name", Py.JStr "Color"); ("value", Py.JStr "red")]]
       ++ Py.JObj [("name", Py.JStr "Item Weight"); ("value", Py.JStr "2 oz")]
       :: [Py.JNull])
  = Some (Py.JStr "2 oz").
Proof.
  apply (proj1 (first_named_detail_wins "Item Weight"
                  [Py.JObj [("name", Py.JStr "Color");
                            ("value", Py.JStr "red")]]
                  [Py.JNull]
                  [("name", Py.JStr "Item Weight");
                   ("value", Py.JStr "2 oz")]
                  (Forall_cons _
                     (ex_intro _ [("name", Py.JStr "Color");
                                  ("value", Py.JStr "red")]
                        (conj eq_refl eq_refl))
                     (Forall_nil _)))).
  reflexivity.
Defined.

(** X6. truncate_text for any budget n: a falsy value (None, 0, an empty
    string, list or dict) becomes the empty string; a string of at most n
    characters is returned unchanged; a longer one becomes a text of exactly
    n + 3 characters, so a string of n + 1 or n + 2 characters comes out
    longer than it went in; a true value without a length (True, a non-zero
    number) raises. *)
Theorem truncate_text_any_budget (n : nat) :
  (forall v, Py.truthy v = false ->
             Detail.truncate_text v n = Some (Py.JStr ""))
  /\ (forall s, (String.length s <= n)%nat ->
                Detail.truncate_text (Py.JStr s) n = Some (Py.JStr s))
  /\ (forall s, (n < String.length s)%nat ->
                exists cut,
                  Detail.truncate_text (Py.JStr s) n = Some (Py.JStr cut)
                  /\ String.length cut = n + 3
                  /\ String.prefix (PyStr.slice_to n s) s = true
                  /\ cut = (PyStr.slice_to n s ++ "...")%string)
  /\ (forall v, Py.truthy v = true -> Py.py_len v = None ->
                Detail.truncate_text v n = None).
Proof.
  split; [|split; [|split]].
  - intros v Hv. unfold Detail.truncate_text. rewrite Hv. reflexivity.
  - intro s. apply DetailFacts.truncate_short.
  - intros s Hs. exists (PyStr.slice_to n s ++ "...")%string.
    split; [apply DetailFacts.truncate_long; exact Hs|].
    destruct (DetailFacts.slice_to_prefix n s) as (rest & Heq & Hlen);
      [lia|].
    split; [rewrite NormalizerFacts.length_append, Hlen; reflexivity|].
    split; [|reflexivity].
    rewrite Heq at 2. clear.
    induction (PyStr.slice_to n s) as [|c p IH]; simpl.
    + destruct rest; reflexivity.
    + destruct (ascii_dec c c); [exact IH | congruence].
  - intros v Hv Hl. unfold Detail.truncate_text. rewrite Hv, Hl. reflexivity.
Qed.

Lemma truncate_text_witness :
  (exists cut,
      Detail.truncate_text (Py.JStr "abcdef") 5 = Some (Py.JStr cut)
      /\ String.length cut = 8)
  /\ Detail.truncate_text (Py.JBool true) 5 = None.
Proof.
  split.
  - destruct (proj1 (proj2 (proj2 (truncate_text_any_budget 5))) "abcdef")
      as (cut & H1 & H2 & _).
    { apply Nat.ltb_lt. reflexivity. }
    exists cut. split; assumption.
  - apply (proj2 (proj2 (proj2 (truncate_text_any_budget 5)))
                 (Py.JBool true)); reflexivity.
Defined.

Module TallyFacts.
Import PyStr Py Csv Detail DetailObs.

Section Facts.

Context {codec : Codec}.

Lemma flushes_app (t u : list event) :
  flushes (t ++ u) = flushes t + flushes u.
Proof. unfold flushes. rewrite filter_app, length_app. reflexivity. Qed.

(** One key: it fails and joins the failed keys, or one line is written
    for it, or the writer refuses its row and the run ends. *)
Lemma handle_asin_tally (http : nat -> string -> option json)
      (asin api_key : string) (s : state) :
  match handle_asin http asin api_key s with
  | Completed s1 =>
      requests s1 = S (requests s)
      /\ flushes (trace s1) = flushes (trace s)
      /\ if fails http api_key (requests s) asin
         then failed_asins s1 = failed_asins s ++ [asin]
              /\ csvfile s1 = csvfile s
              /\ success_count s1 = success_count s
         else failed_asins s1 = failed_asins s
              /\ List.length (csvfile s1) = S (List.length (csvfile s))
              /\ success_count s1 = S (success_count s)
  | Aborted s1 =>
      failed_asins s1 = failed_asins s
      /\ csvfile s1 = csvfile s
      /\ success_count s1 = success_count s
  end.
Proof.
  rewrite (DetailFacts.handle_asin_cases http asin api_key s). cbv zeta.
  unfold fails.
  destruct (handle_response asin _) as [row|message|].
  - destruct (row_ok _).
    + destruct (lookup "remaining_credits" row); simpl;
        rewrite flushes_app, length_app; unfold flushes at 2; simpl;
        repeat split; first [reflexivity | lia].
    + destruct (lookup "remaining_credits" row); simpl; repeat split.
  - simpl. rewrite !flushes_app. unfold flushes at 2 3. simpl.
    repeat split; first [reflexivity | lia].
  - simpl. rewrite !flushes_app. unfold flushes at 2 3. simpl.
    repeat split; first [reflexivity | lia].
Qed.

Lemma tenth (i : nat) :
  (i + 1) / 10 = i / 10 + (if ((i + 1) mod 10 =? 0)%nat then 1 else 0).
Proof.
  pose proof (Nat.div_mod_eq i 10) as Hi.
  pose proof (Nat.mod_upper_bound i 10 ltac:(lia)) as Hr.
  destruct (Nat.eq_dec (i mod 10) 9) as [H9|H9].
  - assert (Hm : (i + 1) mod 10 = 0)
      by (symmetry; apply (Nat.mod_unique (i + 1) 10 (i / 10 + 1) 0); lia).
    rewrite Hm. simpl.
    symmetry. apply (Nat.div_unique (i + 1) 10 (i / 10 + 1) 0); lia.
  - assert (Hm : (i + 1) mod 10 = i mod 10 + 1)
      by (symmetry;
          apply (Nat.mod_unique (i + 1) 10 (i / 10) (i mod 10 + 1)); lia).
    rewrite Hm.
    replace (i mod 10 + 1 =? 0)%nat with false
      by (symmetry; apply Nat.eqb_neq; lia).
    rewrite Nat.add_0_r.
    symmetry. apply (Nat.div_unique (i + 1) 10 (i / 10) (i mod 10 + 1)); lia.
Qed.

Lemma process_tally (http : nat -> string -> option json)
      (asin_list : list string) (api_key : string) (i : nat) (s : state) :
  List.length (csvfile (state_of (process http i asin_list api_key s)))
  + success_count s
  = List.length (csvfile s)
    + success_count (state_of (process http i asin_list api_key s))
  /\ match process http i asin_list api_key s with
     | Completed s' =>
         failed_asins s'
         = failed_asins s ++ failing http api_key (requests s) asin_list
         /\ success_count s'
            + List.length (failing http api_key (requests s) asin_list)
            = success_count s + List.length asin_list
         /\ flushes (trace s') + i / 10
            = flushes (trace s) + (i + List.length asin_list) / 10
     | Aborted s' =>
         success_count s' + List.length (failed_asins s')
         < success_count s + List.length (failed_asins s)
           + List.length asin_list
     end.
Proof.
  revert i s. induction asin_list as [|asin rest IH]; intros i s.
  - simpl. rewrite app_nil_r, !Nat.add_0_r. auto.
  - pose proof (handle_asin_tally http asin api_key s) as Hcase.
    cbn [process failing].
    destruct (handle_asin http asin api_key s) as [s1|s1].
    + destruct Hcase as (Hr & Hfl & Hcase).
      destruct (IH (S i) (after_asin i s1)) as [Hlen Hrun].
      assert (Ha : requests (after_asin i s1) = S (requests s)
                   /\ failed_asins (after_asin i s1) = failed_asins s1
                   /\ csvfile (after_asin i s1) = csvfile s1
                   /\ success_count (after_asin i s1) = success_count s1
                   /\ flushes (trace (after_asin i s1))
                      = flushes (trace s)
                        + (if ((i + 1) mod 10 =? 0)%nat then 1 else 0)).
      { unfold after_asin. destruct ((i + 1) mod 10 =? 0)%nat; simpl;
          rewrite !flushes_app, Hfl; unfold flushes at 2 3; simpl;
          repeat split; lia. }
      destruct Ha as (Ha1 & Ha2 & Ha3 & Ha4 & Ha5).
      rewrite Ha3, Ha4 in Hlen.
      pose proof (tenth i) as Ht.
      destruct (process http (S i) rest api_key (after_asin i s1))
        as [s'|s']; cbn [state_of] in *.
      * destruct Hrun as (Hf & Hs & Hfs).
        rewrite Ha1, Ha2 in Hf. rewrite Ha1, Ha4 in Hs. rewrite Ha5 in Hfs.
        replace (S i) with (i + 1) in Hfs by lia.
        replace (i + 1 + List.length rest)
          with (i + List.length (asin :: rest)) in Hfs by (simpl; lia).
        destruct (fails http api_key (requests s) asin);
          destruct Hcase as (C1 & C2 & C3).
        -- rewrite C1 in Hf. rewrite C2 in Hlen. rewrite C3 in Hs, Hlen.
           rewrite Hf, <- app_assoc, length_app.
           cbn [List.length app] in *. repeat split; lia.
        -- rewrite C1 in Hf. rewrite C2 in Hlen. rewrite C3 in Hs, Hlen.
           rewrite Hf. cbn [List.length app] in *. repeat split; lia.
      * rewrite Ha2, Ha4 in Hrun.
        destruct (fails http api_key (requests s) asin);
          destruct Hcase as (C1 & C2 & C3);
          rewrite C1, C3 in Hrun; rewrite C2 in Hlen; rewrite C3 in Hlen;
          rewrite ?length_app in *; cbn [List.length] in *; split; lia.
    + destruct Hcase as (C1 & C2 & C3). cbn [state_of List.length].
      rewrite C1, C2, C3. split; lia.
Qed.

End Facts.

End TallyFacts.

(** X7. For a key whose body carries a payload that the normalizer
    accepts: when the writer takes the row, exactly the normalizer's row is
    written and the key counts as a success; when the writer refuses it (a
    text that utf-8 cannot encode), nothing is written and the run ends.  In
    both cases a quota counter carried by the body has become the last-seen
    quota by then, and a body without one has left the last-seen quota as it
    was.  A failing key never changes the last-seen quota, even when its
    body carries a counter. *)
Theorem quota_follows_successful_responses {codec : Csv.Codec}
        (http : nat -> string -> option Py.json)
        (asin api_key : string) (s : Detail.state) :
  (forall data product row,
      http (Detail.requests s) (Detail.request_url asin api_key)
      = Some (Py.JObj data) ->
      Py.lookup "detail" data = Some (Py.JObj product) ->
      Detail.make_row asin product = Some row ->
      let quota :=
        match Py.lookup "remaining_credits" data with
        | Some credits => Some credits
        | None => Detail.remaining_credits s
        end in
      (Csv.row_ok (map snd row) = true ->
       exists s1,
         Detail.handle_asin http asin api_key s = Detail.Completed s1
         /\ Detail.csvfile s1 = Detail.csvfile s ++ [map snd row]
         /\ Detail.success_count s1 = S (Detail.success_count s)
         /\ Detail.failed_asins s1 = Detail.failed_asins s
         /\ Detail.remaining_credits s1 = quota)
      /\ (Csv.row_ok (map snd row) = false ->
          exists s1,
            Detail.handle_asin http asin api_key s = Detail.Aborted s1
            /\ Detail.csvfile s1 = Detail.csvfile s
            /\ Detail.success_count s1 = Detail.success_count s
            /\ Detail.failed_asins s1 = Detail.failed_asins s
            /\ Detail.remaining_credits s1 = quota))
  /\ (DetailObs.fails http api_key (Detail.requests s) asin = true ->
      exists s1,
        Detail.handle_asin http asin api_key s = Detail.Completed s1
        /\ Detail.remaining_credits s1 = Detail.remaining_credits s).
Proof.
  split.
  - intros data product row Hresp Hdetail Hrow quota.
    pose proof (DetailFacts.handle_asin_cases http asin api_key s) as Hh.
    cbv zeta in Hh. unfold Detail.handle_response in Hh.
    rewrite Hresp, Hdetail, Hrow in Hh.
    assert (Hcells : forall credits,
               map snd (Py.del_item "remaining_credits"
                          (Py.set_item "remaining_credits" credits row))
               = map snd row
               /\ Py.lookup "remaining_credits"
                    (Py.set_item "remaining_credits" credits row)
                  = Some credits).
    { intro credits.
      unfold Detail.make_row, Detail.bind in Hrow.
      repeat match type of Hrow with
             | match ?x with Some _ => _ | None => _ end = _ =>
                 let E := fresh "E" in destruct x eqn:E; [|discriminate]
             end.
      injection Hrow as <-. split; reflexivity. }
    assert (Hplain : map snd (Py.del_item "remaining_credits" row)
                     = map snd row
                     /\ Py.lookup "remaining_credits" row = None).
    { unfold Detail.make_row, Detail.bind in Hrow.
      repeat match type of Hrow with
             | match ?x with Some _ => _ | None => _ end = _ =>
                 let E := fresh "E" in destruct x eqn:E; [|discriminate]
             end.
      injection Hrow as <-. split; reflexivity. }
    unfold quota.
    destruct (Py.lookup "remaining_credits" data) as [credits|].
    + destruct (Hcells credits) as [Hc Hl]. rewrite Hc, Hl in Hh.
      split; intro Hok; rewrite Hok in Hh;
        (eexists; split; [exact Hh|]); repeat split.
    + destruct Hplain as [Hc Hl]. rewrite Hc, Hl in Hh.
      split; intro Hok; rewrite Hok in Hh;
        (eexists; split; [exact Hh|]); repeat split.
  - intro Hf.
    destruct (NormalizerFacts.fails_unless_row http asin api_key s Hf)
      as (s1 & log & Hh & _ & _ & Hq & _).
    exists s1. split; assumption.
Qed.

Lemma quota_witness :
  exists s1,
    Detail.handle_asin (codec := Csv.plain)
      (fun _ _ => Some (Py.JObj [("detail", Py.JObj []);
                                 ("remaining_credits", Py.JNum (Py.Int 41))]))
      "B01" "k" Detail.initial = Detail.Completed s1
    /\ Detail.remaining_credits s1 = Some (Py.JNum (Py.Int 41))
    /\ Detail.success_count s1 = 1.
Proof.
  destruct (proj1 (proj1 (quota_follows_successful_responses
                            (codec := Csv.plain)
                            (fun _ _ =>
                               Some (Py.JObj [("detail", Py.JObj []);
                                              ("remaining_credits",
                                               Py.JNum (Py.Int 41))]))
                            "B01" "k" Detail.initial)
                         _ _ _ eq_refl eq_refl eq_refl) eq_refl)
    as (s1 & H1 & _ & H3 & _ & H5).
  exists s1. repeat split; assumption.
Defined.

(** X8. The tally of a detail run adds up.  In every run the file holds
    the header and one data row per success.  In a run that reaches its end
    the failed keys are exactly the keys whose request brought no row, in
    input order, successes and failures together are the keys processed, and
    the file was flushed once per ten keys processed, whether they succeeded
    or not.  In a run that the writer ends, successes and failures together
    are fewer than the keys to process. *)
Theorem run_accounts_for_every_key {codec : Csv.Codec}
        (http : nat -> string -> option Py.json)
        (limit : Z) (api_key input_file : option string)
        (asin_list : list string) (result : Detail.outcome) :
  Detail.main http limit api_key input_file = Detail.Ran asin_list result ->
  exists key,
    api_key = Some key
    /\ List.length (Detail.csvfile (Detail.state_of result))
       = 1 + Detail.success_count (Detail.state_of result)
    /\ match result with
       | Detail.Completed s =>
           Detail.failed_asins s = DetailObs.failing http key 0 asin_list
           /\ Detail.success_count s + List.length (Detail.failed_asins s)
              = List.length asin_list
           /\ DetailObs.flushes (Detail.trace s) = List.length asin_list / 10
       | Detail.Aborted s =>
           Detail.success_count s + List.length (Detail.failed_asins s)
           < List.length asin_list
       end.
Proof.
  unfold Detail.main. intro Hmain.
  destruct api_key as [[|c key]|]; try discriminate.
  destruct input_file as [raw|]; try discriminate.
  injection Hmain as <- <-.
  destruct (TallyFacts.process_tally http
              (Detail.apply_limit limit (Reader.read_asin_list raw))
              (String c key) 0 Detail.initial) as [Hlen Hrun].
  exists (String c key). split; [reflexivity|].
  simpl in Hlen. split; [lia|].
  destruct (Detail.process http 0 _ (String c key) Detail.initial) as [s|s].
  - destruct Hrun as (Hf & Hs & Hfl). simpl in Hf, Hs.
    change (DetailObs.flushes (Detail.trace Detail.initial)) with 0 in Hfl.
    change (0 / 10) with 0 in Hfl. cbn [Nat.add] in Hfl.
    rewrite Nat.add_0_r in Hfl.
    split; [exact Hf|]. rewrite Hf. split; [lia | exact Hfl].
  - simpl in Hrun. exact Hrun.
Qed.

Lemma run_accounts_witness :
  exists s,
    Detail.main (codec := Csv.plain)
      (fun n _ => if (n =? 1)%nat then None
                  else Some (Py.JObj [("detail", Py.JObj [])]))
      0 (Some "k") (Some "B01 B02 B03")
    = Detail.Ran ["B01"; "B02"; "B03"] (Detail.Completed s)
    /\ Detail.failed_asins s = ["B02"]
    /\ Detail.success_count s = 2.
Proof.
  eexists. split; [reflexivity|].
  destruct (run_accounts_for_every_key (codec := Csv.plain)
              (fun n _ => if (n =? 1)%nat then None
                          else Some (Py.JObj [("detail", Py.JObj [])]))
              0%Z (Some "k") (Some "B01 B02 B03") _ _ eq_refl)
    as (key & _ & _ & Hf & Hs & _).
  split; [exact Hf|].
  apply (Nat.add_cancel_r _ _ 1). exact Hs.
Defined.

(** ** The input readers on odd inputs *)

Module ReaderMore.
Import PyStr Reader.

Lemma read_asin_list_split (raw : string) :
  read_asin_list raw = split (universal_newlines raw)
  /\ Forall word (read_asin_list raw).
Proof.
  unfold read_asin_list.
  rewrite ReaderFacts.filter_nonblank, ReaderFacts.split_strip.
  destruct (ReaderFacts.split_tokens (universal_newlines raw)) as [_ Hall].
  rewrite (ReaderFacts.kept_words _ Hall). split; [reflexivity | exact Hall].
Qed.

Lemma no_space_universal (s : string) :
  no_space s = true -> universal_newlines s = s.
Proof.
  induction s as [|c s IH]; simpl; [reflexivity|].
  rewrite andb_true_iff. intros [Hc Hs].
  destruct (Ascii.eqb c CR) eqn:Ec.
  - apply Ascii.eqb_eq in Ec. subst c. discriminate.
  - rewrite (IH Hs). reflexivity.
Qed.

Lemma no_space_scan (s : string) :
  no_space s = true -> split_scan s = (s, []).
Proof.
  induction s as [|c s IH]; simpl; [reflexivity|].
  rewrite andb_true_iff. intros [Hc Hs]. rewrite (IH Hs).
  destruct (isspace c); [discriminate | reflexivity].
Qed.

Lemma blank_universal (s : string) :
  blank s = true -> blank (universal_newlines s) = true.
Proof.
  induction s as [|c s IH]; [reflexivity|].
  cbn [blank universal_newlines]. rewrite andb_true_iff. intros [Hc Hs].
  destruct (Ascii.eqb c CR).
  - destruct s as [|c' s']; [reflexivity|].
    destruct (Ascii.eqb c' LF); [exact (IH Hs)|].
    cbn [blank]. rewrite (IH Hs). reflexivity.
  - cbn [blank]. rewrite Hc, (IH Hs). reflexivity.
Qed.

Lemma blank_lines (s : string) :
  blank s = true -> Forall (fun l => blank l = true) (readlines s).
Proof.
  induction s as [|c s IH]; cbn [blank readlines]; [constructor|].
  rewrite andb_true_iff. intros [Hc Hs]. specialize (IH Hs).
  destruct (Ascii.eqb c LF).
  - constructor; [cbn [blank]; rewrite Hc; reflexivity | exact IH].
  - destruct (readlines s) as [|l ls].
    + constructor; [cbn [blank]; rewrite Hc; reflexivity | constructor].
    + inversion IH as [|? ? Hl Hls]; subst.
      constructor; [cbn [blank]; rewrite Hc, Hl; reflexivity | exact Hls].
Qed.

Lemma blank_reads_nothing (raw : string) :
  blank raw = true -> read_asin_list raw = [] /\ read_keywords raw = [].
Proof.
  intro Hb. apply blank_universal in Hb. split.
  - unfold read_asin_list, strip.
    apply ReaderFacts.rstrip_empty_blank in Hb. rewrite Hb. reflexivity.
  - unfold read_keywords. apply blank_lines in Hb.
    induction Hb as [|l ls Hl _ IH]; [reflexivity|].
    cbn [filter]. rewrite ReaderFacts.strip_empty_blank, Hl. exact IH.
Qed.

End ReaderMore.

(** X9. A product identifier read by the detail pipeline never contains a
    whitespace character and is never empty; only whitespace separates
    identifiers, so a file without whitespace, commas or not, is read as one
    single identifier. *)
Theorem identifiers_are_whitespace_free (raw : string) :
  Forall Reader.word (Reader.read_asin_list raw)
  /\ (Reader.word raw -> Reader.read_asin_list raw = [raw]).
Proof.
  destruct (ReaderMore.read_asin_list_split raw) as [Heq Hall].
  split; [exact Hall|].
  intros [Hn He]. rewrite Heq, (ReaderMore.no_space_universal _ Hn).
  unfold PyStr.split. rewrite (ReaderMore.no_space_scan _ Hn).
  destruct raw; [discriminate | reflexivity].
Qed.

Lemma identifiers_witness :
  Reader.read_asin_list "B000123,B000456" = ["B000123,B000456"].
Proof.
  apply (proj2 (identifiers_are_whitespace_free "B000123,B000456")).
  split; reflexivity.
Defined.

(** X10. An input file that is empty or holds only whitespace gives no
    key: the detail pipeline then sends no request and leaves a file with
    the header alone, and the search pipeline searches nothing and does not
    touch the output file. *)
Theorem blank_input_does_nothing {codec : Csv.Codec} (raw : string) :
  Reader.blank raw = true ->
  (forall http limit c key,
      Detail.main http limit (Some (String c key)) (Some raw)
      = Detail.Ran [] (Detail.Completed Detail.initial))
  /\ (forall serp before,
         Search.main serp raw before
         = Search.Completed (Search.mkState 0 [] before true)).
Proof.
  intro Hb.
  destruct (ReaderMore.blank_reads_nothing raw Hb) as [Ha Hk]. split.
  - intros http limit c key. unfold Detail.main. rewrite Ha.
    assert (Hl : Detail.apply_limit limit [] = []).
    { unfold Detail.apply_limit. destruct (0 <? limit)%Z; [|reflexivity].
      apply firstn_nil. }
    rewrite Hl. reflexivity.
  - intros serp before. unfold Search.main. rewrite Hk. reflexivity.
Qed.

Lemma blank_input_witness :
  Detail.main (codec := Csv.plain) (fun _ _ => None) 3 (Some "k") (Some "  ")
  = Detail.Ran [] (Detail.Completed Detail.initial).
Proof.
  apply (proj1 (blank_input_does_nothing (codec := Csv.plain) "  " eq_refl)).
Defined.

(** ** The rows and the totals of the search pipeline *)

Module RowsFacts.
Import PyStr Py PyShape Csv Search SearchObs.

Section Facts.

Context {codec : Codec}.

Lemma product_row_cells (keyword : string) (product : json)
      (cells : list json) :
  product_row keyword product = Some cells ->
  well_formed keyword (Data cells) /\ is_dict product = true.
Proof.
  destruct product; try discriminate. simpl.
  intro H. injection H as <-. repeat split.
Qed.

Lemma write_products_well_formed (keyword : string) (products : list json) :
  Forall (well_formed keyword) (fst (write_products keyword products)).
Proof.
  induction products as [|product rest IH]; simpl; [constructor|].
  destruct (product_row keyword product) as [cells|] eqn:Hp;
    [|constructor].
  destruct (row_ok cells); [|constructor].
  destruct (write_products keyword rest) as [rows done]. simpl in *.
  constructor; [|exact IH].
  apply (product_row_cells _ _ _ Hp).
Qed.

(** The loop over the products stops at the first one the writer does
    not take. *)
Lemma write_products_stops (keyword : string)
      (good : list json) (bad : json) (rest : list json) :
  Forall (fun p => writable keyword p = true) good ->
  writable keyword bad = false ->
  exists rows,
    write_products keyword (good ++ bad :: rest) = (rows, false)
    /\ List.length rows = List.length good
    /\ Forall is_data rows.
Proof.
  unfold writable. intros Hg Hb.
  induction Hg as [|p good Hp _ (rows & Hw & Hl & Hd)].
  - exists []. cbn [app write_products].
    destruct (product_row keyword bad) as [cells|];
      [rewrite Hb|]; repeat split; constructor.
  - cbn [app write_products].
    destruct (product_row keyword p) as [cells|]; [|discriminate].
    rewrite Hp, Hw.
    eexists. split; [reflexivity|]. simpl. split; [congruence|].
    constructor; [exact I | exact Hd].
Qed.

Lemma data_rows_app (a b : list line) :
  data_rows (Some (a ++ b)) = data_rows (Some a) + data_rows (Some b).
Proof. simpl. rewrite filter_app, length_app. reflexivity. Qed.

Lemma data_rows_all (rows : list line) :
  Forall is_data rows -> data_rows (Some rows) = List.length rows.
Proof.
  simpl. induction 1 as [|l rows Hl _ IH]; [reflexivity|].
  destruct l; [destruct Hl|]. simpl. rewrite IH. reflexivity.
Qed.

(** A save adds as many data rows as it returns. *)
Lemma save_adds_count (results : dict) (keyword : string) (append : bool)
      (f : file) (n : nat) :
  append = true \/ data_rows f = 0 ->
  fst (fst (save_to_csv results keyword append f)) = Some n ->
  data_rows (snd (fst (save_to_csv results keyword append f)))
  = data_rows f + n.
Proof.
  intros Hmode Hn.
  destruct (lookup "products" results) as [products|] eqn:Hp.
  - destruct (truthy products) eqn:Ht.
    + destruct (SearchFacts.save_with_products results keyword append f
                  products Hp Ht) as (rows & Hd & Hw & Hf & Hlen).
      rewrite Hf, Hw, !data_rows_app, (data_rows_all _ Hd), (Hlen n Hn).
      assert (Hh : data_rows
                     (Some (if negb append
                               || match f with
                                  | Some _ => false
                                  | None => true
                                  end
                            then [Header fieldnames] else [])) = 0)
        by (destruct (negb append || _); reflexivity).
      rewrite Hh.
      assert (Ho : data_rows (Some (open_file append f)) = data_rows f).
      { unfold open_file. destruct append.
        - destruct f; reflexivity.
        - destruct Hmode as [Hm|Hm]; [discriminate | rewrite Hm; reflexivity]. }
      rewrite Ho. lia.
    + unfold save_to_csv in *. rewrite Hp, Ht in *. simpl in *.
      injection Hn as <-. lia.
  - unfold save_to_csv in *. rewrite Hp in *. simpl in *.
    injection Hn as <-. lia.
Qed.

Lemma fetch_pages_adds_total (serp : nat -> string -> Z -> option dict)
      (pages : list nat) (keyword : string) (total total' : nat)
      (s : state) :
  appending s ->
  fst (fetch_pages serp pages keyword total s) = Some total' ->
  appending (snd (fetch_pages serp pages keyword total s))
  /\ data_rows (output (snd (fetch_pages serp pages keyword total s)))
     + total
     = data_rows (output s) + total'.
Proof.
  revert total s. induction pages as [|page rest IH]; intros total s Ha Hr.
  - simpl in *. injection Hr as <-. split; [exact Ha | lia].
  - cbn [fetch_pages] in *. unfold search_home_depot in *. cbv zeta in *.
    cbn [requests trace output first_write] in *.
    destruct (serp (requests s) keyword (offset page)) as [results|];
      [|discriminate].
    assert (Hmode : negb (first_write s) = true \/ data_rows (output s) = 0).
    { destruct Ha as [->|Ha]; [left; reflexivity | right; exact Ha]. }
    pose proof (save_adds_count results keyword (negb (first_write s))
                  (output s)) as Hsave.
    destruct (save_to_csv results keyword (negb (first_write s)) (output s))
      as [[[n|] f] lines]; [|discriminate].
    specialize (Hsave n Hmode eq_refl). simpl in Hsave.
    destruct (has_next results) as [next|]; [|discriminate].
    destruct (negb next || (n =? 0)%nat).
    + simpl in *. injection Hr as <-.
      split; [left; reflexivity | lia].
    + match type of Hr with
      | fst (fetch_pages serp rest keyword ?t ?s0) = _ =>
          destruct (IH t s0) as [Ha' Hd']; [left; reflexivity | exact Hr |]
      end.
      split; [exact Ha'|]. simpl in Hd'. lia.
Qed.

Lemma reports_app (t u : list event) :
  reports (t ++ u) = reports t ++ reports u.
Proof. unfold reports. apply flat_map_app. Qed.

Lemma page_events_report_nothing
      (serp : nat -> string -> Z -> option dict)
      (pages : list nat) (keyword : string) (n : nat) :
  reports (page_events serp pages keyword n) = [].
Proof.
  revert n. induction pages as [|page rest IH]; intro n; [reflexivity|].
  cbn [page_events]. destruct (page_continues _ keyword); [|reflexivity].
  change (reports (page_events serp rest keyword (S n)) = []). apply IH.
Qed.

(** The whole run: one report per keyword searched to its end. *)
Lemma search_all_reported (serp : nat -> string -> Z -> option dict)
      (keywords : list string) (s : state) :
  exists new,
    trace (state_of (search_all serp keywords s)) = trace s ++ new
    /\ match search_all serp keywords s with
       | Completed _ => map fst (reports new) = keywords
       | Crashed _ =>
           exists done keyword rest,
             keywords = done ++ keyword :: rest
             /\ map fst (reports new) = done
       end.
Proof.
  revert s. induction keywords as [|keyword rest IH]; intro s.
  - exists []. simpl. rewrite app_nil_r. split; reflexivity.
  - cbn [search_all].
    destruct (SearchFacts.fetch_pages_events serp (seq 1 max_pages)
                keyword 0 s) as [Ht _].
    destruct (fetch_pages serp (seq 1 max_pages) keyword 0 s)
      as [[total|] s1]; simpl in Ht.
    + destruct (IH (emit (Report keyword total) s1)) as (new & Hn & Hm).
      exists (page_events serp (seq 1 max_pages) keyword (requests s)
                ++ Report keyword total :: new).
      split.
      * rewrite Hn. simpl. rewrite Ht, <- !app_assoc. reflexivity.
      * rewrite reports_app, page_events_report_nothing.
        destruct (search_all serp rest (emit (Report keyword total) s1))
          as [s'|s'].
        -- simpl. rewrite Hm. reflexivity.
        -- destruct Hm as (done & kw & rest' & Hk & Hdone).
           exists (keyword :: done), kw, rest'. simpl.
           rewrite Hk, Hdone. split; reflexivity.
    + exists (page_events serp (seq 1 max_pages) keyword (requests s)).
      split; [exact Ht|].
      exists [], keyword, rest.
      rewrite page_events_report_nothing. split; reflexivity.
Qed.

(** ... and as many data rows added as reported. *)
Lemma search_all_rows (serp : nat -> string -> Z -> option dict)
      (keywords : list string) (s s' : state) :
  appending s ->
  search_all serp keywords s = Completed s' ->
  data_rows (output s') + reported s = data_rows (output s) + reported s'.
Proof.
  revert s. induction keywords as [|keyword rest IH]; intros s Ha Hrun.
  - simpl in Hrun. injection Hrun as <-. lia.
  - cbn [search_all] in Hrun.
    destruct (SearchFacts.fetch_pages_events serp (seq 1 max_pages)
                keyword 0 s) as [Ht _].
    pose proof (fun total' =>
                  fetch_pages_adds_total serp (seq 1 max_pages) keyword 0
                                         total' s Ha) as Hd.
    destruct (fetch_pages serp (seq 1 max_pages) keyword 0 s)
      as [[total|] s1]; [|discriminate]. cbn [snd] in Ht.
    destruct (Hd total eq_refl) as [Ha1 Hd1]. cbn [snd] in Ha1, Hd1.
    specialize (IH (emit (Report keyword total) s1) Ha1 Hrun).
    assert (Hrep : reported (emit (Report keyword total) s1)
                   = reported s + total).
    { unfold reported, emit. cbn [trace].
      rewrite Ht, !reports_app, page_events_report_nothing, app_nil_r.
      rewrite map_app, list_sum_app. simpl. lia. }
    simpl in IH. rewrite Hrep in IH. lia.
Qed.

End Facts.

End RowsFacts.

(** X11. Every line a save call writes is well formed: a header is the
    fixed twelve field names, and a data row has exactly twelve cells with
    the keyword first, whatever fields the product carried.  A product whose
    delivery entry is missing or no object gets the free-delivery flag
    False, and one whose pickup entry is missing or no object gets the empty
    store name and the quantity 0, without any error. *)
Theorem search_rows_are_well_formed {codec : Csv.Codec} (keyword : string) :
  (forall results append f,
      Forall (SearchObs.well_formed keyword)
             (snd (Search.save_to_csv results keyword append f)))
  /\ (forall product,
         exists cells,
           Search.product_row keyword (Py.JObj product) = Some cells
           /\ (PyShape.is_dict (Py.get product "delivery" Py.JNull) = false ->
               nth 9 cells Py.JNull = Py.JBool false)
           /\ (PyShape.is_dict (Py.get product "pickup" Py.JNull) = false ->
               nth 10 cells Py.JNull = Py.JStr ""
               /\ nth 11 cells Py.JNull = Py.JNum (Py.Int 0))).
Proof.
  split.
  - intros results append f. unfold Search.save_to_csv.
    destruct (Py.lookup "products" results) as [products|]; [|constructor].
    destruct (Py.truthy products); [|constructor]. simpl.
    assert (Hh : Forall (SearchObs.well_formed keyword)
                   (if negb match f with Some _ => true | None => false end
                       || negb append
                    then [Search.Header Search.fieldnames] else [])).
    { destruct (negb _ || negb append); repeat constructor. }
    destruct (Py.py_iter products) as [items|].
    + pose proof (RowsFacts.write_products_well_formed keyword items) as Hr.
      destruct (Search.write_products keyword items) as [rows [|]];
        simpl in *; apply Forall_app; split; assumption.
    + simpl. rewrite app_nil_r. exact Hh.
  - intro product. eexists. split; [reflexivity|]. simpl. split.
    + destruct (Py.get product "delivery" Py.JNull);
        try reflexivity; discriminate.
    + destruct (Py.get product "pickup" Py.JNull);
        try (split; reflexivity); discriminate.
Qed.

(** X12. When the products list holds an item that the writer does not
    take (an item that is no object, or an object whose row holds a text
    that utf-8 cannot encode), the save call raises, but only after it has
    opened the file and written the header (if due) and one row for each
    product before that item: the file keeps these rows and nothing of the
    later products. *)
Theorem malformed_product_leaves_partial_file {codec : Csv.Codec}
        (results : Py.dict) (keyword : string) (append : bool)
        (f : Search.file)
        (good : list Py.json) (bad : Py.json) (rest : list Py.json) :
  Py.lookup "products" results = Some (Py.JArr (good ++ bad :: rest)) ->
  Forall (fun p => SearchObs.writable keyword p = true) good ->
  SearchObs.writable keyword bad = false ->
  exists rows,
    Search.save_to_csv results keyword append f
    = (None,
       Some (Search.open_file append f
               ++ (if Search.writes_header results keyword append f
                   then [Search.Header Search.fieldnames] else [])
               ++ rows),
       (if Search.writes_header results keyword append f
        then [Search.Header Search.fieldnames] else []) ++ rows)
    /\ List.length rows = List.length good
    /\ Forall Search.is_data rows.
Proof.
  intros Hp Hg Hb.
  destruct (RowsFacts.write_products_stops keyword good bad rest Hg Hb)
    as (rows & Hw & Hl & Hd).
  exists rows. split; [|split; assumption].
  assert (Ht : Py.truthy (Py.JArr (good ++ bad :: rest)) = true)
    by (destruct good; reflexivity).
  assert (Hr : existsb Search.is_header rows = false).
  { clear -Hd. induction Hd as [|l rows Hl _ IH]; [reflexivity|].
    destruct l; [destruct Hl | exact IH]. }
  unfold Search.writes_header, Search.save_to_csv.
  rewrite Hp, Ht. simpl. rewrite Hw. simpl.
  rewrite existsb_app, Hr, orb_false_r.
  destruct (negb match f with Some _ => true | None => false end
            || negb append); reflexivity.
Qed.

Lemma malformed_product_witness :
  exists rows,
    Search.save_to_csv (codec := Csv.marked)
      [("products",
        Py.JArr ([Py.JObj []]
                   ++ Py.JObj [("title", Py.JStr (String "237"%char ""))]
                   :: [Py.JObj []]))]
      "hammer" false None
    = (None, Some ([Search.Header Search.fieldnames] ++ rows),
       [Search.Header Search.fieldnames] ++ rows)
    /\ List.length rows = 1.
Proof.
  destruct (malformed_product_leaves_partial_file (codec := Csv.marked)
              [("products",
                Py.JArr ([Py.JObj []]
                           ++ Py.JObj [("title",
                                        Py.JStr (String "237"%char ""))]
                           :: [Py.JObj []]))]
              "hammer" false None [Py.JObj []]
              (Py.JObj [("title", Py.JStr (String "237"%char ""))])
              [Py.JObj []]
              eq_refl
              (Forall_cons (Py.JObj [])
                 (eq_refl : SearchObs.writable (codec := Csv.marked)
                              "hammer" (Py.JObj []) = true)
                 (Forall_nil _))
              eq_refl)
    as (rows & H1 & H2 & _).
  exists rows. split; [exact H1 | exact H2].
Defined.

(** X13. In a run that starts with no data rows in the output file and
    runs to its end, every keyword of the input is reported once, in input
    order, and the number of data rows in the file is the sum of the totals
    reported. *)
Theorem reported_totals_match_the_file {codec : Csv.Codec}
        (serp : nat -> string -> Z -> option Py.dict)
        (keywords_file : string) (before : Search.file) (s : Search.state) :
  SearchObs.data_rows before = 0 ->
  Search.main serp keywords_file before = Search.Completed s ->
  map fst (SearchObs.reports (Search.trace s))
  = Reader.read_keywords keywords_file
  /\ SearchObs.data_rows (Search.output s)
     = list_sum (map snd (SearchObs.reports (Search.trace s))).
Proof.
  intros Hb Hmain. unfold Search.main in Hmain.
  destruct (RowsFacts.search_all_reported serp
              (Reader.read_keywords keywords_file)
              (Search.mkState 0 [] before true)) as (new & Ht & Hm).
  rewrite Hmain in Ht, Hm. simpl in Ht. rewrite Ht. split; [exact Hm|].
  assert (Ha : SearchObs.appending (Search.mkState 0 [] before true))
    by (right; exact Hb).
  pose proof (RowsFacts.search_all_rows serp _ _ _ Ha Hmain) as Hr.
  unfold SearchObs.reported in Hr. cbn [Search.trace Search.output] in Hr.
  rewrite Ht, Hb in Hr. simpl in Hr. lia.
Qed.

Lemma reported_totals_witness :
  exists s,
    Search.main (codec := Csv.plain)
                (fun _ _ _ => Some [("products", Py.JArr [Py.JObj []])])
                "hammer" None = Search.Completed s
    /\ SearchObs.reports (Search.trace s) = [("hammer", 1)]
    /\ SearchObs.data_rows (Search.output s) = 1.
Proof.
  eexists. split; [reflexivity|].
  destruct (reported_totals_match_the_file (codec := Csv.plain)
              (fun _ _ _ => Some [("products", Py.JArr [Py.JObj []])])
              "hammer" None _ eq_refl eq_refl) as [_ H].
  split; [reflexivity | exact H].
Defined.

(** X14. When a run is ended by an exception (a failed search, a malformed
    product or pagination value), the keywords reported are exactly the
    keywords before the one that was being searched: that keyword and the
    ones after it get no report. *)
Theorem crash_reports_only_finished_keywords {codec : Csv.Codec}
        (serp : nat -> string -> Z -> option Py.dict)
        (keywords_file : string) (before : Search.file) (s : Search.state) :
  Search.main serp keywords_file before = Search.Crashed s ->
  exists done keyword rest,
    Reader.read_keywords keywords_file = done ++ keyword :: rest
    /\ map fst (SearchObs.reports (Search.trace s)) = done.
Proof.
  intro Hmain. unfold Search.main in Hmain.
  destruct (RowsFacts.search_all_reported serp
              (Reader.read_keywords keywords_file)
              (Search.mkState 0 [] before true)) as (new & Ht & Hm).
  rewrite Hmain in Ht, Hm. simpl in Ht. rewrite Ht. exact Hm.
Qed.

Lemma crash_reports_witness :
  exists s done keyword rest,
    Search.main (codec := Csv.plain)
                (fun n _ _ =>
                   if (n =? 1)%nat then None
                   else Some [("products", Py.JArr [Py.JObj []])])
                ("hammer" ++ String PyStr.LF "drill")%string None
    = Search.Crashed s
    /\ Reader.read_keywords ("hammer" ++ String PyStr.LF "drill")
       = done ++ keyword :: rest
    /\ map fst (SearchObs.reports (Search.trace s)) = done
    /\ done = ["hammer"].
Proof.
  eexists.
  destruct (crash_reports_only_finished_keywords (codec := Csv.plain)
              (fun n _ _ =>
                 if (n =? 1)%nat then None
                 else Some [("products", Py.JArr [Py.JObj []])])
              ("hammer" ++ String PyStr.LF "drill") None _ eq_refl)
    as (done & keyword & rest & Hk & Hd).
  exists done, keyword, rest.
  split; [reflexivity|]. split; [exact Hk|]. split; [exact Hd|].
  rewrite <- Hd. reflexivity.
Defined.

Lemma search_rows_witness :
  exists cells,
    Search.product_row "hammer"
      (Py.JObj [("title", Py.JStr "Claw hammer");
                ("delivery", Py.JStr "free")]) = Some cells
    /\ nth 9 cells Py.JNull = Py.JBool false
    /\ nth 10 cells Py.JNull = Py.JStr "".
Proof.
  destruct (proj2 (search_rows_are_well_formed (codec := Csv.plain) "hammer")
                  [("title", Py.JStr "Claw hammer");
                   ("delivery", Py.JStr "free")])
    as (cells & H1 & H2 & H3).
  exists cells. split; [exact H1|].
  split; [apply H2; reflexivity | apply H3; reflexivity].
Defined.

(** ** Loading the search API key *)

Module SetupFacts.
Import PyStr Setup.

Lemma prefix_split (p l : string) :
  String.prefix p l = true -> exists v, l = (p ++ v)%string.
Proof.
  revert l. induction p as [|a p IH]; intros l H.
  - exists l. reflexivity.
  - destruct l as [|b l]; [discriminate|]. simpl in H.
    destruct (ascii_dec a b) as [->|]; [|discriminate].
    destruct (IH l H) as (v & ->). exists v. reflexivity.
Qed.

Lemma append_empty (s : string) : (s ++ "")%string = s.
Proof. induction s as [|c s IH]; simpl; congruence. Qed.

(** Right-stripping goes through a prefix that has something left. *)
Lemma rstrip_append (p v : string) :
  rstrip (p ++ v)
  = match rstrip v with
    | EmptyString => rstrip p
    | r => (p ++ r)%string
    end.
Proof.
  induction p as [|c p IH].
  - simpl. destruct (rstrip v); reflexivity.
  - cbn [append rstrip]. rewrite IH.
    destruct (rstrip v) as [|a r]; [reflexivity|].
    destruct p; reflexivity.
Qed.

(** The value taken from a matching line. *)
Lemma key_of_line (v : string) :
  after_first "="%char (strip (KEY_PREFIX ++ v)) = Some (rstrip v).
Proof.
  unfold strip. rewrite rstrip_append.
  destruct (rstrip v) as [|a r]; reflexivity.
Qed.

End SetupFacts.

(** X15. The API key of the search pipeline: a non-empty environment
    value is used as it is and the .env file is not even opened.  Otherwise
    the .env file is opened (a file that cannot be opened raises) and the
    first line that starts with "homedepot.apikey=" decides: the key is
    everything after that first "=" (further "=" signs and leading spaces
    included) with the line's trailing whitespace removed.  When the whole
    file decodes, a file with no such line leaves the environment value,
    so that reading it never raises; when the decoder fails part-way, the
    key is still found if a matching line was delivered before the
    failure, and otherwise the UnicodeDecodeError is raised. *)
Theorem api_key_comes_from_first_matching_line
        (environ : option string) :
  (forall c key env_file,
      environ = Some (String c key) ->
      Setup.load_api_key environ env_file = Some (Some (String c key)))
  /\ (forall raw before value after,
         environ = None \/ environ = Some EmptyString ->
         PyStr.readlines (PyStr.universal_newlines raw)
         = before ++ (Setup.KEY_PREFIX ++ value)%string :: after ->
         Forall (fun line => String.prefix Setup.KEY_PREFIX line = false)
                before ->
         Setup.load_api_key environ (Setup.Decoded raw)
         = Some (Some (PyStr.rstrip value)))
  /\ (forall raw,
         environ = None \/ environ = Some EmptyString ->
         Forall (fun line => String.prefix Setup.KEY_PREFIX line = false)
                (PyStr.readlines (PyStr.universal_newlines raw)) ->
         Setup.load_api_key environ (Setup.Decoded raw) = Some environ)
  /\ (forall raw, exists api_key,
         Setup.load_api_key environ (Setup.Decoded raw) = Some api_key)
  /\ (forall before value after,
         environ = None \/ environ = Some EmptyString ->
         Forall (fun line => String.prefix Setup.KEY_PREFIX line = false)
                before ->
         Setup.load_api_key environ
           (Setup.Broken
              (before ++ (Setup.KEY_PREFIX ++ value)%string :: after))
         = Some (Some (PyStr.rstrip value)))
  /\ (forall delivered,
         environ = None \/ environ = Some EmptyString ->
         Forall (fun line => String.prefix Setup.KEY_PREFIX line = false)
                delivered ->
         Setup.load_api_key environ (Setup.Broken delivered) = None)
  /\ (environ = None \/ environ = Some EmptyString ->
      Setup.load_api_key environ Setup.Unopened = None).
Proof.
  assert (Hscan : forall lines,
             (exists before value after,
                 lines = before ++ (Setup.KEY_PREFIX ++ value)%string :: after
                 /\ Forall (fun line =>
                              String.prefix Setup.KEY_PREFIX line = false)
                           before)
             \/ Forall (fun line =>
                          String.prefix Setup.KEY_PREFIX line = false)
                       lines).
  { induction lines as [|line lines [(b & v & a & -> & Hb)|IH]].
    - right. constructor.
    - destruct (String.prefix Setup.KEY_PREFIX line) eqn:Hp.
      + destruct (SetupFacts.prefix_split _ _ Hp) as (v' & ->).
        left. exists [], v', (b ++ (Setup.KEY_PREFIX ++ v)%string :: a).
        split; [reflexivity | constructor].
      + left. exists (line :: b), v, a.
        split; [reflexivity | constructor; assumption].
    - destruct (String.prefix Setup.KEY_PREFIX line) eqn:Hp.
      + destruct (SetupFacts.prefix_split _ _ Hp) as (v' & ->).
        left. exists [], v', lines. split; [reflexivity | constructor].
      + right. constructor; assumption. }
  assert (Hfound : forall before value after at_end,
             Forall (fun line => String.prefix Setup.KEY_PREFIX line = false)
                    before ->
             Setup.scan_env
               (before ++ (Setup.KEY_PREFIX ++ value)%string :: after) at_end
             = Some (Some (PyStr.rstrip value))).
  { intros before value after at_end Hb.
    induction Hb as [|line before Hl _ IH].
    - cbn [app Setup.scan_env].
      assert (Hp : String.prefix Setup.KEY_PREFIX
                     (Setup.KEY_PREFIX ++ value) = true).
      { simpl. repeat (destruct (ascii_dec _ _); [|congruence]).
        destruct value; reflexivity. }
      rewrite Hp, SetupFacts.key_of_line. reflexivity.
    - cbn [app Setup.scan_env]. rewrite Hl. exact IH. }
  assert (Hnone : forall lines at_end,
             Forall (fun line => String.prefix Setup.KEY_PREFIX line = false)
                    lines ->
             Setup.scan_env lines at_end = at_end).
  { intros lines at_end Hl. induction Hl as [|line lines Hp _ IH].
    - reflexivity.
    - cbn [Setup.scan_env]. rewrite Hp. exact IH. }
  repeat apply conj.
  - intros c key env_file ->. reflexivity.
  - intros raw before value after He Hlines Hb.
    unfold Setup.load_api_key.
    destruct He as [->| ->]; rewrite Hlines; apply Hfound; exact Hb.
  - intros raw He Hl. unfold Setup.load_api_key.
    destruct He as [->| ->]; apply Hnone; exact Hl.
  - intro raw. unfold Setup.load_api_key.
    destruct environ as [[|c key]|]; try (eexists; reflexivity);
      (destruct (Hscan (PyStr.readlines (PyStr.universal_newlines raw)))
        as [(b & v & a & -> & Hb)|Hl];
       [rewrite (Hfound _ _ _ _ Hb) | rewrite (Hnone _ _ Hl)];
       eexists; reflexivity).
  - intros before value after He Hb. unfold Setup.load_api_key.
    destruct He as [->| ->]; apply Hfound; exact Hb.
  - intros delivered He Hl. unfold Setup.load_api_key.
    destruct He as [->| ->]; apply Hnone; exact Hl.
  - intros [->| ->]; reflexivity.
Qed.

Lemma api_key_witness :
  Setup.load_api_key None
    (Setup.Decoded
       ("unwrangle.apikey=u1" ++ String PyStr.LF
          ("homedepot.apikey= a=b  " ++ String PyStr.LF ""))%string)
  = Some (Some " a=b")
  /\ Setup.load_api_key None
       (Setup.Broken
          [("homedepot.apikey=k1" ++ String PyStr.LF "")%string])
     = Some (Some "k1")
  /\ Setup.load_api_key None
       (Setup.Broken
          [("unwrangle.apikey=u1" ++ String PyStr.LF "")%string])
     = None.
Proof.
  pose proof (api_key_comes_from_first_matching_line None)
    as (_ & Hfound & _ & _ & Hpart & Hraise & _).
  split; [|split].
  - apply (Hfound
             ("unwrangle.apikey=u1" ++ String PyStr.LF
                ("homedepot.apikey= a=b  " ++ String PyStr.LF ""))%string
             [("unwrangle.apikey=u1" ++ String PyStr.LF "")%string]
             (" a=b  " ++ String PyStr.LF "")%string
             []).
    + left. reflexivity.
    + reflexivity.
    + repeat constructor.
  - apply (Hpart [] ("k1" ++ String PyStr.LF "")%string []).
    + left. reflexivity.
    + constructor.
  - apply Hraise.
    + left. reflexivity.
    + repeat constructor.
Defined.

(** ** How many searches a run issues *)

Module QuotaFacts.
Import Py Csv Search.

Section Facts.

Context {codec : Codec}.

Lemma page_events_count (serp : nat -> string -> Z -> option dict)
      (pages : list nat) (keyword : string) (n : nat) :
  pages <> [] ->
  1 <= List.length (fetched_pages (page_events serp pages keyword n))
    <= List.length pages.
Proof.
  revert n. induction pages as [|page rest IH]; intros n Hne; [congruence|].
  cbn [page_events]. destruct (page_continues _ keyword).
  - change (1 <= S (List.length
                      (fetched_pages (page_events serp rest keyword (S n))))
            <= S (List.length rest)).
    destruct rest as [|page' rest']; [simpl; lia|].
    specialize (IH (S n) ltac:(discriminate)). lia.
  - simpl. lia.
Qed.

Lemma search_all_requests (serp : nat -> string -> Z -> option dict)
      (keywords : list string) (s : state) :
  requests (state_of (search_all serp keywords s))
  <= requests s + max_pages * List.length keywords
  /\ (forall s', search_all serp keywords s = Completed s' ->
                 requests s + List.length keywords <= requests s').
Proof.
  revert s. induction keywords as [|keyword rest IH]; intro s.
  - simpl. split; [lia|]. intros s' H. injection H as <-. lia.
  - cbn [search_all].
    destruct (SearchFacts.fetch_pages_events serp (seq 1 max_pages)
                keyword 0 s) as [_ Hr].
    pose proof (page_events_count serp (seq 1 max_pages) keyword (requests s)
                  ltac:(discriminate)) as Hc.
    rewrite length_seq in Hc.
    destruct (fetch_pages serp (seq 1 max_pages) keyword 0 s)
      as [[total|] s1]; cbn [snd] in Hr.
    + destruct (IH (emit (Report keyword total) s1)) as [Hu Hl].
      cbn [emit requests] in Hu, Hl. cbn [List.length].
      split; [lia|].
      intros s' Hs. specialize (Hl s' Hs). lia.
    + cbn [state_of List.length]. split; [lia | discriminate].
Qed.

End Facts.

End QuotaFacts.

(** X16. A run of the search pipeline issues at most three searches per
    keyword, and a run that reaches its end has issued at least one search
    for every keyword. *)
Theorem searches_per_keyword_are_bounded {codec : Csv.Codec}
        (serp : nat -> string -> Z -> option Py.dict)
        (keywords_file : string) (before : Search.file) :
  let keywords := Reader.read_keywords keywords_file in
  let run := Search.main serp keywords_file before in
  Search.requests (Search.state_of run) <= 3 * List.length keywords
  /\ List.length (Search.fetched_pages (Search.trace (Search.state_of run)))
     = Search.requests (Search.state_of run)
  /\ (forall s, run = Search.Completed s ->
                List.length keywords <= Search.requests s).
Proof.
  intros keywords run. unfold run, Search.main. fold keywords.
  destruct (QuotaFacts.search_all_requests serp keywords
              (Search.mkState 0 [] before true)) as [Hu Hl].
  cbn [Search.requests] in Hu, Hl.
  split; [exact Hu|]. split; [|exact Hl].
  assert (Hgen : forall l s,
             List.length (Search.fetched_pages
                            (Search.trace
                               (Search.state_of (Search.search_all serp l s))))
             + Search.requests s
             = List.length (Search.fetched_pages (Search.trace s))
               + Search.requests (Search.state_of (Search.search_all serp l s))).
  { induction l as [|keyword rest IH]; intro s; [simpl; lia|].
    cbn [Search.search_all].
    destruct (SearchFacts.fetch_pages_events serp (seq 1 Search.max_pages)
                keyword 0 s) as [Ht Hr].
    destruct (Search.fetch_pages serp (seq 1 Search.max_pages) keyword 0 s)
      as [[total|] s1]; cbn [snd] in Ht, Hr.
    - specialize (IH (Search.emit (Search.Report keyword total) s1)).
      cbn [Search.emit Search.requests Search.trace] in IH.
      unfold Search.fetched_pages in *.
      rewrite flat_map_app, length_app in IH.
      cbn [flat_map List.length app] in IH.
      rewrite Ht, flat_map_app, length_app in IH. lia.
    - cbn [Search.state_of]. unfold Search.fetched_pages in *.
      rewrite Ht, flat_map_app, length_app. lia. }
  specialize (Hgen keywords (Search.mkState 0 [] before true)).
  cbn [Search.requests Search.trace] in Hgen. simpl in Hgen. lia.
Qed.

Lemma searches_bounded_witness :
  exists s,
    Search.main (codec := Csv.plain)
      (fun _ _ _ =>
         Some [("products", Py.JArr [Py.JObj []]);
               ("serpapi_pagination", Py.JObj [("next", Py.JStr "more")])])
      "hammer" None = Search.Completed s
    /\ 1 <= Search.requests s <= 3.
Proof.
  eexists. split; [reflexivity|].
  destruct (searches_per_keyword_are_bounded (codec := Csv.plain)
              (fun _ _ _ =>
                 Some [("products", Py.JArr [Py.JObj []]);
                       ("serpapi_pagination",
                        Py.JObj [("next", Py.JStr "more")])])
              "hammer" None) as (Hu & _ & Hl).
  split; [apply (Hl _ eq_refl) | exact Hu].
Defined.
